(** * machineInfo: a shallow embedding of [machineInfo.go]

    The program queries the operating system (host name, [sysinfo(2)],
    [/proc/cpuinfo], network interfaces) and prints what it finds.  Every
    function of the source is embedded as a computation in the monad [Go]
    below: a finite tree whose nodes are the interactions of the program
    with its environment (an OS query, a call to [fmt.Printf]) and whose
    leaves are the three ways a Go program stops (normal return, [panic],
    [os.Exit]).  The behaviour of the host is supplied separately, as a
    handler threaded through [run]. *)

From Stdlib Require Import ZArith List String Ascii Bool Lia QArith Qpower Qfield.
From Stdlib Require Import Floats.FloatClass Floats.SpecFloat.
From ExtLib Require Import Structures.Monad.
Import ListNotations.
Import MonadNotation.
Local Open Scope string_scope.
Local Open Scope Z_scope.
Local Open Scope monad_scope.

(* ===================================================================== *)
(** * Constants *)

(** [SYSINFO_LOADS_SCALE = 1<<16] *)
Definition SYSINFO_LOADS_SCALE : Z := Z.shiftl 1 16.

(** [SYSINFO_MEM_UNIT = 1024 * 1024] *)
Definition SYSINFO_MEM_UNIT : Z := 1024 * 1024.

(* ===================================================================== *)
(** * Data *)

(** Go's [float64]: IEEE 754 binary64, as specified by [SpecFloat] with a
    53-bit mantissa and [emax = 1024]. *)
Definition float64 : Set := spec_float.
Definition f64_prec : Z := 53.
Definition f64_emax : Z := 1024.

(** The conversion [float64(x)] of an unsigned integer: rounding to
    nearest, ties to even. *)
Definition float64_of_uint64 (x : Z) : float64 :=
  binary_normalize f64_prec f64_emax x 0 false.

(** The quotient [x / y] of two [float64] values. *)
Definition float64_div (x y : float64) : float64 :=
  SFdiv f64_prec f64_emax x y.

(** Bounds of the integer types of the records below. *)
Definition uint16_max : Z := 2 ^ 16 - 1.
Definition uint64_max : Z := 2 ^ 64 - 1.
Definition int64_min : Z := - 2 ^ 63.
Definition int64_max : Z := 2 ^ 63 - 1.

Definition is_uint16 (x : Z) : Prop := 0 <= x <= uint16_max.
Definition is_uint64 (x : Z) : Prop := 0 <= x <= uint64_max.
Definition is_int64 (x : Z) : Prop := int64_min <= x <= int64_max.

(** A Go array [[3]T]. *)
Record array3 (T : Type) : Type := Array3 { at0 : T; at1 : T; at2 : T }.
Arguments Array3 {T} _ _ _.
Arguments at0 {T} _.
Arguments at1 {T} _.
Arguments at2 {T} _.

(** [syscall.Sysinfo_t], the fields that [GetSysInfo] reads.  On the
    64-bit Linux targets for which the source type-checks, [Uptime] is an
    [int64], [Procs] a [uint16] and every other field a [uint64]. *)
Record Sysinfo_t : Type := {
  Uptime    : Z;
  Loads_raw : array3 Z;
  Totalram  : Z;
  Freeram   : Z;
  Sharedram : Z;
  Bufferram : Z;
  Totalswap : Z;
  Freeswap  : Z;
  Procs_raw : Z;
  Totalhigh : Z;
  Freehigh  : Z
}.

(** What the types of [Sysinfo_t] guarantee about a value the kernel
    hands back. *)
Record Sysinfo_wf (r : Sysinfo_t) : Prop := {
  wf_Uptime    : is_int64 (Uptime r);
  wf_Loads0    : is_uint64 (at0 (Loads_raw r));
  wf_Loads1    : is_uint64 (at1 (Loads_raw r));
  wf_Loads2    : is_uint64 (at2 (Loads_raw r));
  wf_Totalram  : is_uint64 (Totalram r);
  wf_Freeram   : is_uint64 (Freeram r);
  wf_Sharedram : is_uint64 (Sharedram r);
  wf_Bufferram : is_uint64 (Bufferram r);
  wf_Totalswap : is_uint64 (Totalswap r);
  wf_Freeswap  : is_uint64 (Freeswap r);
  wf_Procs     : is_uint16 (Procs_raw r);
  wf_Totalhigh : is_uint64 (Totalhigh r);
  wf_Freehigh  : is_uint64 (Freehigh r)
}.

(** [sys_t], the program's own record. *)
Record sys_t : Type := {
  UpTime    : Z;                (* int64 *)
  Loads     : array3 float64;   (* [3]float64 *)
  TotalRam  : Z;                (* uint64 *)
  FreeRam   : Z;
  SharedRam : Z;
  BufferRam : Z;
  TotalSwap : Z;
  FreeSwap  : Z;
  Procs     : Z;                (* uint16 *)
  TotalHigh : Z;
  FreeHigh  : Z
}.

(** [cpu.InfoStat] of gopsutil, the fields that [PrintCPUInfo] prints. *)
Record InfoStat : Type := {
  CPU        : Z;
  VendorID   : string;
  Family     : string;
  Model      : string;
  Stepping   : Z;
  PhysicalID : string;
  CoreID     : string;
  Cores      : Z;
  ModelName  : string;
  Mhz        : float64;
  CacheSize  : Z;
  Flags      : list string;
  Microcode  : string
}.

(** [net.Interface]. *)
Record Interface : Type := {
  Index        : Z;
  MTU          : Z;
  Name         : string;
  HardwareAddr : list Z;
  IfFlags      : Z
}.

(** A Go [error] value, identified by its message. *)
Definition error : Set := string.

(* ===================================================================== *)
(** * The environment: OS queries and standard output *)

(** The four queries the program makes. *)
Inductive query : Set :=
| os_Hostname        (* os.Hostname() *)
| syscall_Sysinfo    (* syscall.Sysinfo(&info) *)
| cpu_Info           (* cpu.Info() *)
| net_Interfaces.    (* net.Interfaces() *)

(** What a query yields when it succeeds. *)
Definition payload (q : query) : Type :=
  match q with
  | os_Hostname => string
  | syscall_Sysinfo => Sysinfo_t
  | cpu_Info => list InfoStat
  | net_Interfaces => list Interface
  end.

(** A Go call returns its value together with an [error] that is [nil]
    ([None]) on success. *)
Definition answer (q : query) : Type := (payload q * option error)%type.

(** An operand of a [fmt] call. *)
Inductive value : Type :=
| VInt (z : Z)
| VString (s : string)
| VFloat64 (f : float64)
| VStrings (l : list string)
| VInterface (i : Interface).

(** One call that writes to standard output.  The text is kept as the
    format and its operands. *)
Inductive output : Type :=
| Printf (format : string) (args : list value)
| Println (args : list value).

(** The value carried by a panic. *)
Inductive panic_value : Type :=
| PanicError (e : error)                 (* panic(err) *)
| IndexOutOfRange (i len : Z)            (* a[i] with i >= len(a) *)
| SliceOutOfRange (lo len : Z).          (* a[lo:] with lo > len(a) *)

(* ===================================================================== *)
(** * The monad of Go computations *)

Inductive Go (A : Type) : Type :=
| Ret (a : A)
| Panic (v : panic_value)
| OsExit (code : Z)
| Ask (q : query) (k : answer q -> Go A)
| Out (o : output) (k : Go A).
Arguments Ret {A} _.
Arguments Panic {A} _.
Arguments OsExit {A} _.
Arguments Ask {A} _ _.
Arguments Out {A} _ _.

Fixpoint Go_bind {A B : Type} (m : Go A) (f : A -> Go B) : Go B :=
  match m with
  | Ret a => f a
  | Panic v => Panic v
  | OsExit c => OsExit c
  | Ask q k => Ask q (fun r => Go_bind (k r) f)
  | Out o k => Out o (Go_bind k f)
  end.

#[export] Instance Monad_Go : Monad Go :=
  {| ret := @Ret; bind := @Go_bind |}.

(** How a run ends. *)
Inductive outcome (A : Type) : Type :=
| Returned (a : A)
| Panicked (v : panic_value)
| Exited (code : Z).
Arguments Returned {A} _.
Arguments Panicked {A} _.
Arguments Exited {A} _.

(** What is observed of a run: how it ended, what was written to standard
    output, which OS queries were issued (both in order), and the state in
    which the host is left. *)
Record Run (W A : Type) : Type := MkRun {
  result : outcome A;
  stdout : list output;
  calls  : list query;
  final  : W
}.
Arguments MkRun {W A} _ _ _ _.
Arguments result {W A} _.
Arguments stdout {W A} _.
Arguments calls {W A} _.
Arguments final {W A} _.

Section Host.
(** The host: a state and the way it answers a query. *)
Variable W : Type.
Variable handle : forall q : query, W -> answer q * W.

Definition reply (q : query) (w : W) : answer q := fst (handle q w).
Definition next (q : query) (w : W) : W := snd (handle q w).

Fixpoint run {A : Type} (p : Go A) (w : W) : Run W A :=
  match p with
  | Ret a => MkRun (Returned a) [] [] w
  | Panic v => MkRun (Panicked v) [] [] w
  | OsExit c => MkRun (Exited c) [] [] w
  | Ask q k =>
      let r := run (k (reply q w)) (next q w) in
      MkRun (result r) (stdout r) (q :: calls r) (final r)
  | Out o k =>
      let r := run k w in
      MkRun (result r) (o :: stdout r) (calls r) (final r)
  end.
End Host.
Arguments reply {W} _ _ _.
Arguments next {W} _ _ _.
Arguments run {W} _ {A} _ _.

(* ===================================================================== *)
(** * Go idioms *)

(** The characters written [\t] and [\n] in the source. *)
Definition TAB : string := String (ascii_of_nat 9) EmptyString.
Definition NL : string := String (ascii_of_nat 10) EmptyString.

(** [len(a)] *)
Definition len {T : Type} (a : list T) : Z := Z.of_nat (List.length a).

(** One OS query, returning Go's pair of a value and an error. *)
Definition ask (q : query) : Go (answer q) := Ask q Ret.

(** [panic(err)] *)
Definition panic {A : Type} (err : error) : Go A := Panic (PanicError err).

(** [fmt.Printf(format, args...)] and [fmt.Println(args...)] *)
Definition fmt_Printf (format : string) (args : list value) : Go unit :=
  Out (Printf format args) (Ret tt).
Definition fmt_Println (args : list value) : Go unit :=
  Out (Println args) (Ret tt).

(** [a[i]]: the run-time bounds check of an index expression. *)
Definition index {T : Type} (a : list T) (i : nat) : Go T :=
  match nth_error a i with
  | Some x => ret x
  | None => Panic (IndexOutOfRange (Z.of_nat i) (len a))
  end.

(** [for i := lo; i < hi; i++ { body }], for a body that does not assign
    to [i]. *)
Definition for_range (lo hi : nat) (body : nat -> Go unit) : Go unit :=
  fold_right (fun i rest => body i ;; rest) (ret tt) (seq lo (hi - lo)).

(* ===================================================================== *)
(** * Command-line flags

    [main] registers four boolean flags with [flag.Bool] and calls
    [flag.Parse()].  The definitions below follow [FlagSet.parseOne] and
    [FlagSet.Parse] of Go's package [flag], for a flag set that holds
    exactly these four flags and handles errors with [ExitOnError]
    (the usage text goes to standard error, which is not modelled). *)

(** The four variables [hn], [OS], [cpu], [netw] of [main]. *)
Record FlagVars : Set := { hn : bool; OS : bool; cpu : bool; netw : bool }.

(** All four flags are registered with the default [false]. *)
Definition flag_defaults : FlagVars :=
  {| hn := false; OS := false; cpu := false; netw := false |}.

(** [strconv.ParseBool] *)
Definition ParseBool (s : string) : option bool :=
  if existsb (String.eqb s) ["1"; "t"; "T"; "true"; "TRUE"; "True"] then Some true
  else if existsb (String.eqb s) ["0"; "f"; "F"; "false"; "FALSE"; "False"] then Some false
  else None.

(** Whether a flag of that name is registered ([f.formal[name]]). *)
Definition registered (name : string) : bool :=
  existsb (String.eqb name) ["hostname"; "os"; "cpu"; "network"].

(** Assignment through the pointer registered under [name]. *)
Definition set_flag (name : string) (b : bool) (fl : FlagVars) : FlagVars :=
  if (name =? "hostname")%string then
    {| hn := b; OS := OS fl; cpu := cpu fl; netw := netw fl |}
  else if (name =? "os")%string then
    {| hn := hn fl; OS := b; cpu := cpu fl; netw := netw fl |}
  else if (name =? "cpu")%string then
    {| hn := hn fl; OS := OS fl; cpu := b; netw := netw fl |}
  else if (name =? "network")%string then
    {| hn := hn fl; OS := OS fl; cpu := cpu fl; netw := b |}
  else fl.

(** The text up to the first ['='], and what follows it if there is one. *)
Fixpoint split_equals (s : string) : string * option string :=
  match s with
  | EmptyString => (EmptyString, None)
  | String c rest =>
      if (c =? "=")%char then (EmptyString, Some rest)
      else let (n, v) := split_equals rest in (String c n, v)
  end.

(** The shape of one command-line argument. *)
Inductive arg_shape : Set :=
| NotAFlag                                   (* shorter than 2, or no leading '-' *)
| Terminator                                 (* exactly "--" *)
| BadSyntax                                  (* "-", "---x", "-=x", ... *)
| FlagArg (name : string) (val : option string).

Definition shape_of (s : string) : arg_shape :=
  match s with
  | String "-" (String c rest as after1) =>
      if (c =? "-")%char && (rest =? EmptyString)%string then Terminator
      else
        let name := if (c =? "-")%char then rest else after1 in
        match name with
        | EmptyString => BadSyntax
        | String c0 rest0 =>
            if (c0 =? "-")%char || (c0 =? "=")%char then BadSyntax
            else let (n, v) := split_equals rest0 in FlagArg (String c0 n) v
        end
  | _ => NotAFlag
  end.

(** [FlagSet.Parse]: arguments are consumed one by one until the first
    that is not a flag.  A boolean flag needs no value and is set to true
    when it has none.  An error ends the process with status 2, a request
    for help ([-h], [-help]) with status 0. *)
Fixpoint FlagSet_Parse (fl : FlagVars) (arguments : list string) : Go FlagVars :=
  match arguments with
  | [] => ret fl
  | s :: rest =>
      match shape_of s with
      | NotAFlag | Terminator => ret fl
      | BadSyntax => OsExit 2
      | FlagArg name val =>
          if negb (registered name) then
            if (name =? "help")%string || (name =? "h")%string then OsExit 0
            else OsExit 2
          else
            match val with
            | None => FlagSet_Parse (set_flag name true fl) rest
            | Some text =>
                match ParseBool text with
                | Some b => FlagSet_Parse (set_flag name b fl) rest
                | None => OsExit 2
                end
            end
      end
  end.

(** [flag.Parse()], that is [flag.CommandLine.Parse(os.Args[1:])]. *)
Definition flag_Parse (os_Args : list string) : Go FlagVars :=
  match os_Args with
  | [] => Panic (SliceOutOfRange 1 0)
  | _ :: arguments => FlagSet_Parse flag_defaults arguments
  end.

(* ===================================================================== *)
(** * The program *)

(** [GetHostName] *)
Definition GetHostName : Go string :=
  '(hostN, err) <- ask os_Hostname ;;
  match err with
  | Some e => panic e
  | None => ret hostN
  end.

(** The arithmetic of [GetSysInfo]: what is stored in [sys_obj] once the
    query has succeeded.  The quotient of a [uint64] by a positive
    constant cannot overflow, so no reduction modulo 2^64 is written. *)
Definition load_of (raw : Z) : float64 :=
  float64_div (float64_of_uint64 raw) (float64_of_uint64 SYSINFO_LOADS_SCALE).

Definition sys_of (sys_ref : Sysinfo_t) : sys_t :=
  {| UpTime    := Uptime sys_ref;
     Loads     := Array3 (load_of (at0 (Loads_raw sys_ref)))
                         (load_of (at1 (Loads_raw sys_ref)))
                         (load_of (at2 (Loads_raw sys_ref)));
     TotalRam  := Totalram sys_ref / SYSINFO_MEM_UNIT;
     FreeRam   := Freeram sys_ref / SYSINFO_MEM_UNIT;
     SharedRam := Sharedram sys_ref / SYSINFO_MEM_UNIT;
     BufferRam := Bufferram sys_ref / SYSINFO_MEM_UNIT;
     TotalSwap := Totalswap sys_ref / SYSINFO_MEM_UNIT;
     FreeSwap  := Freeswap sys_ref / SYSINFO_MEM_UNIT;
     Procs     := Procs_raw sys_ref;
     TotalHigh := Totalhigh sys_ref / SYSINFO_MEM_UNIT;
     FreeHigh  := Freehigh sys_ref / SYSINFO_MEM_UNIT |}.

(** [GetSysInfo] *)
Definition GetSysInfo : Go sys_t :=
  '(sys_ref, err) <- ask syscall_Sysinfo ;;
  match err with
  | Some e => panic e
  | None => ret (sys_of sys_ref)
  end.

(** [GetCPUInfo] *)
Definition GetCPUInfo : Go (list InfoStat) :=
  '(cpu_info, err) <- ask cpu_Info ;;
  match err with
  | Some e => panic e
  | None => ret cpu_info
  end.

(** [GetNetworkInterface] *)
Definition GetNetworkInterface : Go (list Interface) :=
  '(ifaces, err) <- ask net_Interfaces ;;
  match err with
  | Some e => panic e
  | None => ret ifaces
  end.

(** [PrintHostName] *)
Definition PrintHostName : Go unit :=
  hostN <- GetHostName ;;
  fmt_Printf ("hostname:" ++ TAB ++ "%v" ++ NL) [VString hostN].

(** [PrintSysInfo] *)
Definition PrintSysInfo : Go unit :=
  sys_obj <- GetSysInfo ;;
  fmt_Printf ("sys uptime:" ++ TAB ++ "%d" ++ NL) [VInt (UpTime sys_obj)] ;;
  fmt_Printf ("sys load avg:" ++ TAB ++ "%2.2f, %2.2f, %2.2f" ++ NL)
    [VFloat64 (at0 (Loads sys_obj)); VFloat64 (at1 (Loads sys_obj));
     VFloat64 (at2 (Loads sys_obj))] ;;
  fmt_Printf ("sys totalRam:" ++ TAB ++ "%d MB" ++ NL) [VInt (TotalRam sys_obj)] ;;
  fmt_Printf ("sys freeRam:" ++ TAB ++ "%d MB" ++ NL) [VInt (TotalRam sys_obj)] ;;
  fmt_Printf ("sys sharedRam:" ++ TAB ++ "%d MB" ++ NL) [VInt (SharedRam sys_obj)] ;;
  fmt_Printf ("sys bufferRam:" ++ TAB ++ "%d MB" ++ NL) [VInt (BufferRam sys_obj)] ;;
  fmt_Printf ("sys totalSwap:" ++ TAB ++ "%d MB" ++ NL) [VInt (TotalSwap sys_obj)] ;;
  fmt_Printf ("sys freeSwap:" ++ TAB ++ "%d MB" ++ NL) [VInt (FreeSwap sys_obj)] ;;
  fmt_Printf ("sys totalHigh:" ++ TAB ++ "%d MB" ++ NL) [VInt (TotalHigh sys_obj)] ;;
  fmt_Printf ("sys freeHigh:" ++ TAB ++ "%d MB" ++ NL) [VInt (FreeHigh sys_obj)] ;;
  fmt_Printf ("sys procs:" ++ TAB ++ "%d" ++ NL) [VInt (Procs sys_obj)].

(** One [fmt.Printf(format, cpu_info[i].field)] of [PrintCPUInfo]. *)
Definition print_field (cpu_info : list InfoStat) (i : nat)
    (format : string) (field : InfoStat -> value) : Go unit :=
  c <- index cpu_info i ;;
  fmt_Printf format [field c].

(** The body of the loop of [PrintCPUInfo]. *)
Definition print_record (cpu_info : list InfoStat) (i : nat) : Go unit :=
  print_field cpu_info i ("cpuID:" ++ TAB ++ "%d" ++ NL) (fun c => VInt (CPU c)) ;;
  print_field cpu_info i ("--vendorID:" ++ TAB ++ "%s" ++ NL) (fun c => VString (VendorID c)) ;;
  print_field cpu_info i ("--family:" ++ TAB ++ "%s" ++ NL) (fun c => VString (Family c)) ;;
  print_field cpu_info i ("--model:" ++ TAB ++ "%s" ++ NL) (fun c => VString (Model c)) ;;
  print_field cpu_info i ("--stepping:" ++ TAB ++ "%d" ++ NL) (fun c => VInt (Stepping c)) ;;
  print_field cpu_info i ("--physicalID:" ++ TAB ++ "%s" ++ NL) (fun c => VString (PhysicalID c)) ;;
  print_field cpu_info i ("--coreID:" ++ TAB ++ "%s" ++ NL) (fun c => VString (CoreID c)) ;;
  print_field cpu_info i ("--cores:" ++ TAB ++ "%d" ++ NL) (fun c => VInt (Cores c)) ;;
  print_field cpu_info i ("--modelName:" ++ TAB ++ "%s" ++ NL) (fun c => VString (ModelName c)) ;;
  print_field cpu_info i ("--MHz:" ++ TAB ++ TAB ++ "%g" ++ NL) (fun c => VFloat64 (Mhz c)) ;;
  print_field cpu_info i ("--facheSize:" ++ TAB ++ "%d" ++ NL) (fun c => VInt (CacheSize c)) ;;
  print_field cpu_info i ("--flags:" ++ TAB ++ "%v" ++ NL) (fun c => VStrings (Flags c)) ;;
  print_field cpu_info i ("--Microcode:" ++ TAB ++ "%s" ++ NL) (fun c => VString (Microcode c)).

(** [PrintCPUInfo] *)
Definition PrintCPUInfo : Go unit :=
  cpu_info <- GetCPUInfo ;;
  for_range 0 (List.length cpu_info) (print_record cpu_info).

(** The body of the loop of [PrintNetworkInterface]. *)
Definition print_iface (ifaces : list Interface) (i : nat) : Go unit :=
  iface <- index ifaces i ;;
  fmt_Printf (TAB ++ TAB ++ "%v" ++ NL) [VInterface iface].

(** [PrintNetworkInterface] *)
Definition PrintNetworkInterface : Go unit :=
  ifaces <- GetNetworkInterface ;;
  first <- index ifaces 0 ;;
  fmt_Printf ("interfaces:" ++ TAB ++ "%v" ++ NL) [VInterface first] ;;
  for_range 1 (List.length ifaces) (print_iface ifaces).

Section Build.
(** [runtime.GOOS] and [runtime.GOARCH], constants of the build. *)
Variables GOOS GOARCH : string.

(** [GetOSName] *)
Definition GetOSName : string * string := (GOOS, GOARCH).

(** [PrintOSName] *)
Definition PrintOSName : Go unit :=
  fmt_Printf ("OS name:" ++ TAB ++ "%v" ++ NL) [VString GOOS] ;;
  fmt_Printf ("OS arch:" ++ TAB ++ "%v" ++ NL) [VString GOARCH].

(** [main] *)
Definition main (os_Args : list string) : Go unit :=
  fl <- flag_Parse os_Args ;;
  fmt_Println [VInt (len os_Args)] ;;
  if len os_Args =? 1 then
    PrintHostName ;;
    PrintNetworkInterface ;;
    PrintOSName ;;
    PrintSysInfo ;;
    PrintCPUInfo
  else
    (if hn fl then PrintHostName else ret tt) ;;
    (if OS fl then PrintSysInfo ;; PrintCPUInfo else ret tt) ;;
    (if cpu fl then PrintCPUInfo else ret tt) ;;
    (if netw fl then PrintNetworkInterface else ret tt).
End Build.

(* ===================================================================== *)
(** * What each reporter is expected to write

    The text of a report section, as a function of the data it shows.
    The lemmas of the next part derive these from the printing functions
    above. *)

Definition hostname_lines (hostN : string) : list output :=
  [Printf ("hostname:" ++ TAB ++ "%v" ++ NL) [VString hostN]].

Definition osname_lines (GOOS GOARCH : string) : list output :=
  [Printf ("OS name:" ++ TAB ++ "%v" ++ NL) [VString GOOS];
   Printf ("OS arch:" ++ TAB ++ "%v" ++ NL) [VString GOARCH]].

Definition sys_lines (s : sys_t) : list output :=
  [Printf ("sys uptime:" ++ TAB ++ "%d" ++ NL) [VInt (UpTime s)];
   Printf ("sys load avg:" ++ TAB ++ "%2.2f, %2.2f, %2.2f" ++ NL)
     [VFloat64 (at0 (Loads s)); VFloat64 (at1 (Loads s)); VFloat64 (at2 (Loads s))];
   Printf ("sys totalRam:" ++ TAB ++ "%d MB" ++ NL) [VInt (TotalRam s)];
   Printf ("sys freeRam:" ++ TAB ++ "%d MB" ++ NL) [VInt (TotalRam s)];
   Printf ("sys sharedRam:" ++ TAB ++ "%d MB" ++ NL) [VInt (SharedRam s)];
   Printf ("sys bufferRam:" ++ TAB ++ "%d MB" ++ NL) [VInt (BufferRam s)];
   Printf ("sys totalSwap:" ++ TAB ++ "%d MB" ++ NL) [VInt (TotalSwap s)];
   Printf ("sys freeSwap:" ++ TAB ++ "%d MB" ++ NL) [VInt (FreeSwap s)];
   Printf ("sys totalHigh:" ++ TAB ++ "%d MB" ++ NL) [VInt (TotalHigh s)];
   Printf ("sys freeHigh:" ++ TAB ++ "%d MB" ++ NL) [VInt (FreeHigh s)];
   Printf ("sys procs:" ++ TAB ++ "%d" ++ NL) [VInt (Procs s)]].

(** The thirteen lines of one CPU record. *)
Definition cpu_lines (c : InfoStat) : list output :=
  [Printf ("cpuID:" ++ TAB ++ "%d" ++ NL) [VInt (CPU c)];
   Printf ("--vendorID:" ++ TAB ++ "%s" ++ NL) [VString (VendorID c)];
   Printf ("--family:" ++ TAB ++ "%s" ++ NL) [VString (Family c)];
   Printf ("--model:" ++ TAB ++ "%s" ++ NL) [VString (Model c)];
   Printf ("--stepping:" ++ TAB ++ "%d" ++ NL) [VInt (Stepping c)];
   Printf ("--physicalID:" ++ TAB ++ "%s" ++ NL) [VString (PhysicalID c)];
   Printf ("--coreID:" ++ TAB ++ "%s" ++ NL) [VString (CoreID c)];
   Printf ("--cores:" ++ TAB ++ "%d" ++ NL) [VInt (Cores c)];
   Printf ("--modelName:" ++ TAB ++ "%s" ++ NL) [VString (ModelName c)];
   Printf ("--MHz:" ++ TAB ++ TAB ++ "%g" ++ NL) [VFloat64 (Mhz c)];
   Printf ("--facheSize:" ++ TAB ++ "%d" ++ NL) [VInt (CacheSize c)];
   Printf ("--flags:" ++ TAB ++ "%v" ++ NL) [VStrings (Flags c)];
   Printf ("--Microcode:" ++ TAB ++ "%s" ++ NL) [VString (Microcode c)]].

(** The CPU section: the lines of every record, one record after the
    other. *)
Definition cpu_report (cpu_info : list InfoStat) : list output :=
  flat_map cpu_lines cpu_info.

Definition iface_line (iface : Interface) : output :=
  Printf (TAB ++ TAB ++ "%v" ++ NL) [VInterface iface].

(** The network section of a non-empty list of interfaces. *)
Definition network_lines (ifaces : list Interface) : list output :=
  match ifaces with
  | [] => []
  | first :: others =>
      Printf ("interfaces:" ++ TAB ++ "%v" ++ NL) [VInterface first]
      :: map iface_line others
  end.

(** Whether a line was written with the given format. *)
Definition has_format (f : string) (o : output) : bool :=
  match o with
  | Printf format _ => (format =? f)%string
  | Println _ => false
  end.

Definition is_osname_line (o : output) : bool :=
  has_format ("OS name:" ++ TAB ++ "%v" ++ NL) o
  || has_format ("OS arch:" ++ TAB ++ "%v" ++ NL) o.

Definition not_osname (o : output) : Prop := is_osname_line o = false.

(** A program that only writes the given lines. *)
Definition emit (lines : list output) : Go unit :=
  fold_right Out (Ret tt) lines.

(** A program never writes a line outside [P], whatever the host answers. *)
Fixpoint writes_only {A : Type} (P : output -> Prop) (p : Go A) : Prop :=
  match p with
  | Ret _ | Panic _ | OsExit _ => True
  | Ask q k => forall r, writes_only P (k r)
  | Out o k => P o /\ writes_only P k
  end.

(** Sequencing of two observed runs: the second starts where the first
    stopped, if the first returned. *)
Definition then_run {W A B : Type} (r1 : Run W A) (k : A -> W -> Run W B) : Run W B :=
  match result r1 with
  | Returned a =>
      let r2 := k a (final r1) in
      MkRun (result r2) (stdout r1 ++ stdout r2) (calls r1 ++ calls r2) (final r2)
  | Panicked v => MkRun (Panicked v) (stdout r1) (calls r1) (final r1)
  | Exited c => MkRun (Exited c) (stdout r1) (calls r1) (final r1)
  end.

(** The claim that the system-statistics section lies between two copies
    of the CPU section. *)
Definition sys_between_cpu_copies (out cpu_section sys_section : list output) : Prop :=
  exists before gap1 gap2 after : list output,
    out = (before ++ cpu_section ++ gap1 ++ sys_section ++ gap2 ++ cpu_section ++ after)%list.

(** The exact rational value of a finite [float64]. *)
Definition float64_value (f : float64) : Q :=
  match f with
  | S754_finite s m e =>
      (inject_Z (if s then Z.neg m else Z.pos m) * (2 # 1) ^ e)%Q
  | _ => 0%Q
  end.

(** A [float64] that is a number (not a NaN, not an infinity) with a clear
    sign bit. *)
Definition float64_nonneg (f : float64) : bool :=
  match f with
  | S754_zero false | S754_finite false _ _ => true
  | _ => false
  end.

(** A copy of a kernel record with another free-memory reading. *)
Definition with_Freeram (x : Z) (r : Sysinfo_t) : Sysinfo_t :=
  {| Uptime := Uptime r; Loads_raw := Loads_raw r; Totalram := Totalram r;
     Freeram := x; Sharedram := Sharedram r; Bufferram := Bufferram r;
     Totalswap := Totalswap r; Freeswap := Freeswap r; Procs_raw := Procs_raw r;
     Totalhigh := Totalhigh r; Freehigh := Freehigh r |}.

(** A query function [p] built on the query [q]: it issues [q] once,
    writes nothing, panics with the error of [q] when there is one, and
    otherwise returns [f] of what [q] yielded. *)
Definition fatal_on_error {W A : Type} (handle : forall q : query, W -> answer q * W)
    (q : query) (f : payload q -> A) (p : Go A) : Prop :=
  forall w : W,
    let a := reply handle q w in
    let r := run handle p w in
    calls r = [q] /\ stdout r = [] /\ final r = next handle q w /\
    ((exists v, result r = Panicked v) <-> (exists e, snd a = Some e)) /\
    (forall e, snd a = Some e -> result r = Panicked (PanicError e)) /\
    (snd a = None -> result r = Returned (f (fst a))).

(** A positive normal [float64] as the conversion of a non-zero [uint64]
    produces them: a mantissa of exactly 53 bits and an exponent between
    -52 and 12. *)
Definition canonical64 (f : float64) : Prop :=
  exists (m : positive) (e : Z),
    f = S754_finite false m e /\ digits2_pos m = 53%positive /\ -52 <= e <= 12.

(** What the specification says of one load average: the raw value,
    converted to [float64], divided by 65536.0.  The quotient is exact,
    and so is the conversion below 2^53. *)
Definition load_converted (raw : Z) (load : float64) : Prop :=
  load = float64_div (float64_of_uint64 raw) (S754_finite false 4503599627370496 (-36))
  /\ (float64_value load == float64_value (float64_of_uint64 raw) / (65536 # 1))%Q
  /\ (raw < 2 ^ 53 -> (float64_value load == inject_Z raw / (65536 # 1))%Q).

(** What the specification says of one memory field: the byte count
    divided by 1,048,576, rounded down. *)
Definition mem_converted (bytes mb : Z) : Prop :=
  mb = bytes / 1048576
  /\ 1048576 * mb <= bytes < 1048576 * (mb + 1).

(** The queries that the flags ask for, in the order in which [main]
    takes the flags up. *)
Definition selected (fl : FlagVars) : list query :=
  ((if hn fl then [os_Hostname] else [])
   ++ (if OS fl then [syscall_Sysinfo; cpu_Info] else [])
   ++ (if cpu fl then [cpu_Info] else [])
   ++ (if netw fl then [net_Interfaces] else []))%list.

(** [a] is an initial segment of [b]. *)
Definition prefix_of {T : Type} (a b : list T) : Prop :=
  exists rest : list T, b = (a ++ rest)%list.

(** A computation that neither queries the host nor writes. *)
Definition silent {A : Type} (p : Go A) : Prop :=
  match p with
  | Ret _ | Panic _ | OsExit _ => True
  | Ask _ _ | Out _ _ => False
  end.

(** A sequence of reporters that makes the queries [qs] in order: what it
    has asked when it stops is an initial segment of [qs], all of [qs] if
    it returns; and it never leaves through [os.Exit]. *)
Definition asks_in_order (p : Go unit) (qs : list query) : Prop :=
  forall (W : Type) (handle : forall q : query, W -> answer q * W) (w : W),
    let r := run handle p w in
    prefix_of (calls r) qs
    /\ (result r = Returned tt -> calls r = qs)
    /\ (forall c, result r <> Exited c).

(* ===================================================================== *)
(** * A sample host

    Concrete data on which the statements below are exercised.  The state
    of the host is the number of queries it has answered. *)

Module Sample.
Definition lo : Interface :=
  {| Index := 1; MTU := 65536; Name := "lo"; HardwareAddr := []; IfFlags := 5 |}.

Definition eth0 : Interface :=
  {| Index := 2; MTU := 1500; Name := "eth0";
     HardwareAddr := [2; 66; 172; 17; 0; 2]; IfFlags := 19 |}.

Definition core (id : Z) : InfoStat :=
  {| CPU := id; VendorID := "GenuineIntel"; Family := "6"; Model := "85";
     Stepping := 7; PhysicalID := "0"; CoreID := "0"; Cores := 1;
     ModelName := "Intel(R) Xeon(R) CPU";
     Mhz := float64_of_uint64 2500;
     CacheSize := 36608; Flags := ["fpu"; "vme"; "sse2"]; Microcode := "0x1" |}.

Definition info : Sysinfo_t :=
  {| Uptime := 86400;
     Loads_raw := Array3 65536 98304 0;
     Totalram := 8 * 1024 * 1024 * 1024 + 5;
     Freeram := 3 * 1024 * 1024 * 1024;
     Sharedram := 1048575;
     Bufferram := 1048576;
     Totalswap := 2 * 1024 * 1024 * 1024;
     Freeswap := 2 * 1024 * 1024 * 1024;
     Procs_raw := 213;
     Totalhigh := 0;
     Freehigh := 0 |}.

(** A host with the given interfaces on which the queries in [failing]
    fail. *)
Definition host (ifaces : list Interface) (failing : query -> bool)
    (q : query) (w : nat) : answer q * nat :=
  let err := if failing q then Some "operation not permitted" else None in
  (match q return answer q with
   | os_Hostname => ("box", err)
   | syscall_Sysinfo => (info, err)
   | cpu_Info => ([core 0; core 1], err)
   | net_Interfaces => (ifaces, err)
   end, S w).

Definition healthy : query -> bool := fun _ => false.

Definition only (q0 : query) : query -> bool :=
  fun q => match q0, q with
           | os_Hostname, os_Hostname
           | syscall_Sysinfo, syscall_Sysinfo
           | cpu_Info, cpu_Info
           | net_Interfaces, net_Interfaces => true
           | _, _ => false
           end.
End Sample.

(* ===================================================================== *)
(** * Facts about the monad and about runs *)

Lemma emit_app (a b : list output) :
  emit (a ++ b) = (emit a ;; emit b).
Proof.
  induction a as [|o a IH]; simpl.
  - reflexivity.
  - now rewrite IH.
Qed.

Lemma bind_ret_l {A B : Type} (a : A) (f : A -> Go B) :
  bind (ret a) f = f a.
Proof. reflexivity. Qed.

Lemma len_cons {T : Type} (x : T) (l : list T) : len (x :: l) = 1 + len l.
Proof. unfold len. simpl List.length. lia. Qed.

Lemma len_nonneg {T : Type} (l : list T) : 0 <= len l.
Proof. unfold len. lia. Qed.

(** An index within bounds reads the element; no check fails. *)
Lemma index_nth {T : Type} (a : list T) (i : nat) (x : T) :
  nth_error a i = Some x -> index a i = ret x.
Proof. unfold index. now intros ->. Qed.

Lemma print_field_nth (cpu_info : list InfoStat) (i : nat) (c : InfoStat)
    (format : string) (field : InfoStat -> value) :
  nth_error cpu_info i = Some c ->
  print_field cpu_info i format field = fmt_Printf format [field c].
Proof. intros H. unfold print_field. now rewrite (index_nth _ _ _ H). Qed.

Lemma print_record_nth (cpu_info : list InfoStat) (i : nat) (c : InfoStat) :
  nth_error cpu_info i = Some c ->
  print_record cpu_info i = emit (cpu_lines c).
Proof.
  intros H. unfold print_record.
  rewrite !(print_field_nth _ _ _ _ _ H). reflexivity.
Qed.

Lemma print_iface_nth (ifaces : list Interface) (i : nat) (x : Interface) :
  nth_error ifaces i = Some x ->
  print_iface ifaces i = emit [iface_line x].
Proof. intros H. unfold print_iface. now rewrite (index_nth _ _ _ H). Qed.

Lemma nth_error_middle {T : Type} (before after : list T) (x : T) :
  nth_error (before ++ x :: after) (List.length before) = Some x.
Proof. rewrite nth_error_app2 by lia. now rewrite Nat.sub_diag. Qed.

(** A loop whose body writes the lines of the element it visits, started
    at any position of the slice, writes the lines of the remaining
    elements in order. *)
Lemma for_range_emit {T : Type} (lines : T -> list output)
    (body : list T -> nat -> Go unit) (a : list T) :
  (forall i x, nth_error a i = Some x -> body a i = emit (lines x)) ->
  forall after before : list T,
    a = (before ++ after)%list ->
    for_range (List.length before) (List.length a) (body a)
    = emit (flat_map lines after).
Proof.
  intros Hbody after. unfold for_range.
  induction after as [|x after IH]; intros before Ha.
  - subst a. rewrite app_nil_r, Nat.sub_diag. reflexivity.
  - assert (Hn : (List.length a - List.length before
                  = S (List.length a - S (List.length before)))%nat).
    { subst a. rewrite length_app. simpl. lia. }
    rewrite Hn. simpl seq. simpl fold_right.
    rewrite (Hbody _ x) by (subst a; apply nth_error_middle).
    specialize (IH (before ++ [x])%list).
    rewrite length_app, Nat.add_comm in IH. simpl in IH.
    rewrite IH by (subst a; now rewrite <- app_assoc).
    simpl flat_map. now rewrite emit_app.
Qed.

Lemma cpu_loop_emit (cpu_info : list InfoStat) :
  for_range 0 (List.length cpu_info) (print_record cpu_info)
  = emit (cpu_report cpu_info).
Proof.
  apply (for_range_emit cpu_lines print_record cpu_info
           (print_record_nth cpu_info) cpu_info []).
  reflexivity.
Qed.

Lemma iface_loop_emit (first : Interface) (others : list Interface) :
  for_range 1 (List.length (first :: others)) (print_iface (first :: others))
  = emit (map iface_line others).
Proof.
  transitivity (emit (flat_map (fun x => [iface_line x]) others)).
  - exact (for_range_emit (fun x => [iface_line x]) print_iface (first :: others)
             (print_iface_nth (first :: others)) others [first] eq_refl).
  - f_equal.
Qed.

Section RunFacts.
Context {W : Type} (handle : forall q : query, W -> answer q * W).

Lemma run_eta {A : Type} (r : Run W A) :
  MkRun (result r) (stdout r) (calls r) (final r) = r.
Proof. now destruct r. Qed.

(** Running [m] and then [f] is running [m], and then [f] from where [m]
    stopped unless [m] panicked or exited. *)
Lemma run_bind {A B : Type} (m : Go A) (f : A -> Go B) (w : W) :
  run handle (bind m f) w
  = then_run (run handle m w) (fun a w' => run handle (f a) w').
Proof.
  revert w. induction m as [a | v | c | q k IH | o k IH]; intros w.
  - unfold then_run. simpl. now rewrite run_eta.
  - reflexivity.
  - reflexivity.
  - simpl. simpl in IH. rewrite IH. unfold then_run. simpl.
    now destruct (result (run handle (k (reply handle q w)) (next handle q w))).
  - simpl. simpl in IH. rewrite IH. unfold then_run. simpl.
    now destruct (result (run handle k w)).
Qed.

Lemma run_emit (lines : list output) (w : W) :
  run handle (emit lines) w = MkRun (Returned tt) lines [] w.
Proof.
  induction lines as [|o lines IH]; simpl.
  - reflexivity.
  - fold (emit lines). now rewrite IH.
Qed.

(** A program that writes only lines in [P] does so on every host. *)
Lemma writes_only_run {A : Type} (P : output -> Prop) (p : Go A) (w : W) :
  writes_only P p -> Forall P (stdout (run handle p w)).
Proof.
  revert w. induction p as [a | v | c | q k IH | o k IH]; intros w Hp; simpl.
  - constructor.
  - constructor.
  - constructor.
  - apply IH, Hp.
  - destruct Hp as [Ho Hk]. constructor; [exact Ho | now apply IH].
Qed.

(** ** The four query functions *)

Lemma run_GetHostName (w : W) :
  run handle GetHostName w
  = MkRun match snd (reply handle os_Hostname w) with
          | Some e => Panicked (PanicError e)
          | None => Returned (fst (reply handle os_Hostname w))
          end [] [os_Hostname] (next handle os_Hostname w).
Proof.
  unfold GetHostName, ask. simpl.
  now destruct (reply handle os_Hostname w) as [x [e|]].
Qed.

Lemma run_GetSysInfo (w : W) :
  run handle GetSysInfo w
  = MkRun match snd (reply handle syscall_Sysinfo w) with
          | Some e => Panicked (PanicError e)
          | None => Returned (sys_of (fst (reply handle syscall_Sysinfo w)))
          end [] [syscall_Sysinfo] (next handle syscall_Sysinfo w).
Proof.
  unfold GetSysInfo, ask. simpl.
  now destruct (reply handle syscall_Sysinfo w) as [x [e|]].
Qed.

Lemma run_GetCPUInfo (w : W) :
  run handle GetCPUInfo w
  = MkRun match snd (reply handle cpu_Info w) with
          | Some e => Panicked (PanicError e)
          | None => Returned (fst (reply handle cpu_Info w))
          end [] [cpu_Info] (next handle cpu_Info w).
Proof.
  unfold GetCPUInfo, ask. simpl.
  now destruct (reply handle cpu_Info w) as [x [e|]].
Qed.

Lemma run_GetNetworkInterface (w : W) :
  run handle GetNetworkInterface w
  = MkRun match snd (reply handle net_Interfaces w) with
          | Some e => Panicked (PanicError e)
          | None => Returned (fst (reply handle net_Interfaces w))
          end [] [net_Interfaces] (next handle net_Interfaces w).
Proof.
  unfold GetNetworkInterface, ask. simpl.
  now destruct (reply handle net_Interfaces w) as [x [e|]].
Qed.

(** ** The four printing functions that query the host *)

Lemma run_PrintHostName (w : W) :
  run handle PrintHostName w
  = match snd (reply handle os_Hostname w) with
    | Some e => MkRun (Panicked (PanicError e)) [] [os_Hostname] (next handle os_Hostname w)
    | None => MkRun (Returned tt) (hostname_lines (fst (reply handle os_Hostname w)))
                [os_Hostname] (next handle os_Hostname w)
    end.
Proof.
  unfold PrintHostName. rewrite run_bind, run_GetHostName. unfold then_run.
  now destruct (snd (reply handle os_Hostname w)).
Qed.

Lemma run_PrintSysInfo (w : W) :
  run handle PrintSysInfo w
  = match snd (reply handle syscall_Sysinfo w) with
    | Some e => MkRun (Panicked (PanicError e)) [] [syscall_Sysinfo]
                  (next handle syscall_Sysinfo w)
    | None => MkRun (Returned tt) (sys_lines (sys_of (fst (reply handle syscall_Sysinfo w))))
                [syscall_Sysinfo] (next handle syscall_Sysinfo w)
    end.
Proof.
  unfold PrintSysInfo. rewrite run_bind, run_GetSysInfo. unfold then_run.
  now destruct (snd (reply handle syscall_Sysinfo w)).
Qed.

Lemma run_PrintCPUInfo (w : W) :
  run handle PrintCPUInfo w
  = match snd (reply handle cpu_Info w) with
    | Some e => MkRun (Panicked (PanicError e)) [] [cpu_Info] (next handle cpu_Info w)
    | None => MkRun (Returned tt) (cpu_report (fst (reply handle cpu_Info w)))
                [cpu_Info] (next handle cpu_Info w)
    end.
Proof.
  unfold PrintCPUInfo. rewrite run_bind, run_GetCPUInfo. unfold then_run.
  destruct (snd (reply handle cpu_Info w)); simpl result; cbv iota.
  - reflexivity.
  - rewrite cpu_loop_emit. cbn [result stdout calls final].
    rewrite run_emit. reflexivity.
Qed.

Lemma run_PrintNetworkInterface (w : W) :
  run handle PrintNetworkInterface w
  = match snd (reply handle net_Interfaces w) with
    | Some e => MkRun (Panicked (PanicError e)) [] [net_Interfaces]
                  (next handle net_Interfaces w)
    | None =>
        match fst (reply handle net_Interfaces w) with
        | [] => MkRun (Panicked (IndexOutOfRange 0 0)) [] [net_Interfaces]
                  (next handle net_Interfaces w)
        | ifaces => MkRun (Returned tt) (network_lines ifaces) [net_Interfaces]
                      (next handle net_Interfaces w)
        end
    end.
Proof.
  unfold PrintNetworkInterface. rewrite run_bind, run_GetNetworkInterface.
  destruct (reply handle net_Interfaces w) as [ifaces [e|]];
    cbn [fst snd]; unfold then_run; cbn [result stdout calls final].
  - reflexivity.
  - destruct ifaces as [|first others].
    + reflexivity.
    + rewrite iface_loop_emit.
      change (run handle (first <- index (first :: others) 0 ;;
                          fmt_Printf ("interfaces:" ++ TAB ++ "%v" ++ NL) [VInterface first] ;;
                          emit (map iface_line others)) (next handle net_Interfaces w))
        with (run handle (emit (network_lines (first :: others)))
                (next handle net_Interfaces w)).
      rewrite run_emit. reflexivity.
Qed.

Lemma run_PrintOSName (GOOS GOARCH : string) (w : W) :
  run handle (PrintOSName GOOS GOARCH) w
  = MkRun (Returned tt) (osname_lines GOOS GOARCH) [] w.
Proof. reflexivity. Qed.
End RunFacts.

(* ===================================================================== *)
(** * Facts about flags and dispatch *)

(** A flag can only be on if the command line has an argument. *)
Lemma flag_on_needs_argument (os_Args : list string) (fl : FlagVars) :
  flag_Parse os_Args = ret fl ->
  hn fl || OS fl || cpu fl || netw fl = true ->
  (len os_Args =? 1) = false.
Proof.
  intros Hparse Hon. destruct os_Args as [|prog [|a rest]].
  - discriminate Hparse.
  - injection Hparse as <-. discriminate Hon.
  - rewrite !len_cons. pose proof (len_nonneg rest). apply Z.eqb_neq. lia.
Qed.

Section Dispatch.
Variables GOOS GOARCH : string.

(** The path of [main] taken when [len(os.Args) == 1]. *)
Lemma main_no_arguments (prog : string) :
  main GOOS GOARCH [prog]
  = (fmt_Println [VInt 1] ;;
     PrintHostName ;;
     PrintNetworkInterface ;;
     PrintOSName GOOS GOARCH ;;
     PrintSysInfo ;;
     PrintCPUInfo).
Proof. reflexivity. Qed.

(** The path of [main] taken otherwise, once the flags are parsed. *)
Lemma main_with_arguments (os_Args : list string) (fl : FlagVars) :
  flag_Parse os_Args = ret fl ->
  (len os_Args =? 1) = false ->
  main GOOS GOARCH os_Args
  = (fmt_Println [VInt (len os_Args)] ;;
     (if hn fl then PrintHostName else ret tt) ;;
     (if OS fl then PrintSysInfo ;; PrintCPUInfo else ret tt) ;;
     (if cpu fl then PrintCPUInfo else ret tt) ;;
     (if netw fl then PrintNetworkInterface else ret tt)).
Proof.
  intros Hparse Hlen. unfold main. rewrite Hparse, bind_ret_l, Hlen.
  reflexivity.
Qed.

(** The path of [main] when the [os] flag is on. *)
Lemma main_os (os_Args : list string) (fl : FlagVars) :
  flag_Parse os_Args = ret fl ->
  OS fl = true ->
  main GOOS GOARCH os_Args
  = (fmt_Println [VInt (len os_Args)] ;;
     (if hn fl then PrintHostName else ret tt) ;;
     (PrintSysInfo ;; PrintCPUInfo) ;;
     (if cpu fl then PrintCPUInfo else ret tt) ;;
     (if netw fl then PrintNetworkInterface else ret tt)).
Proof.
  intros Hparse Hos.
  rewrite (main_with_arguments os_Args fl Hparse).
  - now rewrite Hos.
  - apply (flag_on_needs_argument os_Args fl Hparse). rewrite Hos.
    now destruct (hn fl).
Qed.
End Dispatch.

(** ** Lines that no reporter but [PrintOSName] writes *)

Lemma writes_only_bind {A B : Type} (P : output -> Prop) (m : Go A) (f : A -> Go B) :
  writes_only P m -> (forall a, writes_only P (f a)) -> writes_only P (bind m f).
Proof.
  intros Hm Hf. induction m as [a | v | c | q k IH | o k IH]; simpl.
  - apply Hf.
  - exact I.
  - exact I.
  - intros r. apply IH, Hm.
  - destruct Hm as [Ho Hk]. split; [exact Ho | now apply IH].
Qed.

Lemma writes_only_for_range (P : output -> Prop) (body : nat -> Go unit) (lo hi : nat) :
  (forall i, writes_only P (body i)) -> writes_only P (for_range lo hi body).
Proof.
  intros Hbody. unfold for_range.
  induction (seq lo (hi - lo)) as [|i l IH]; simpl.
  - exact I.
  - apply writes_only_bind; [apply Hbody | intros _; exact IH].
Qed.

Lemma PrintHostName_not_osname : writes_only not_osname PrintHostName.
Proof. intros [hostN [e|]]; simpl; repeat split. Qed.

Lemma PrintSysInfo_not_osname : writes_only not_osname PrintSysInfo.
Proof. intros [sys_ref [e|]]; simpl; repeat split. Qed.

Lemma PrintCPUInfo_not_osname : writes_only not_osname PrintCPUInfo.
Proof.
  intros [cpu_info [e|]]; [exact I|].
  change (writes_only not_osname
            (for_range 0 (List.length cpu_info) (print_record cpu_info))).
  apply writes_only_for_range. intros i.
  unfold print_record, print_field, index.
  destruct (nth_error cpu_info i); simpl; repeat split.
Qed.

Lemma PrintNetworkInterface_not_osname : writes_only not_osname PrintNetworkInterface.
Proof.
  intros [ifaces [e|]]; [exact I|].
  change (writes_only not_osname
            (first <- index ifaces 0 ;;
             fmt_Printf ("interfaces:" ++ TAB ++ "%v" ++ NL) [VInterface first] ;;
             for_range 1 (List.length ifaces) (print_iface ifaces))).
  apply writes_only_bind.
  - unfold index. now destruct (nth_error ifaces 0).
  - intros first. split; [reflexivity|].
    apply writes_only_for_range. intros i.
    unfold print_iface, index.
    destruct (nth_error ifaces i); simpl; repeat split.
Qed.

(* ===================================================================== *)
(** * The dispatcher *)

Section MainRuns.
Context {W : Type} (handle : forall q : query, W -> answer q * W).
Variables GOOS GOARCH : string.

Lemma run_Println_then {A : Type} (args : list value) (p : Go A) (w : W) :
  run handle (fmt_Println args ;; p) w
  = MkRun (result (run handle p w)) (Println args :: stdout (run handle p w))
      (calls (run handle p w)) (final (run handle p w)).
Proof. reflexivity. Qed.

(** The run of [main] when [--os] is given: everything up to and
    including the first CPU section, on a host where the queries made up
    to there succeed. *)
Lemma run_main_os (os_Args : list string) (fl : FlagVars) (w : W) :
  let w1 := if hn fl then next handle os_Hostname w else w in
  let w2 := next handle syscall_Sysinfo w1 in
  let w3 := next handle cpu_Info w2 in
  let rest :=
    run handle ((if cpu fl then PrintCPUInfo else ret tt) ;;
                (if netw fl then PrintNetworkInterface else ret tt)) w3 in
  flag_Parse os_Args = ret fl ->
  OS fl = true ->
  (hn fl = true -> snd (reply handle os_Hostname w) = None) ->
  snd (reply handle syscall_Sysinfo w1) = None ->
  snd (reply handle cpu_Info w2) = None ->
  run handle (main GOOS GOARCH os_Args) w
  = MkRun (result rest)
      (Println [VInt (len os_Args)]
       :: (if hn fl then hostname_lines (fst (reply handle os_Hostname w)) else [])
       ++ sys_lines (sys_of (fst (reply handle syscall_Sysinfo w1)))
       ++ cpu_report (fst (reply handle cpu_Info w2))
       ++ stdout rest)
      ((if hn fl then [os_Hostname] else [])
       ++ [syscall_Sysinfo; cpu_Info] ++ calls rest)
      (final rest).
Proof.
  intros w1 w2 w3 rest Hparse Hos Hh Hs Hc.
  rewrite (main_with_arguments GOOS GOARCH os_Args fl Hparse)
    by (apply (flag_on_needs_argument os_Args fl Hparse); rewrite Hos;
        now destruct (hn fl)).
  rewrite Hos, run_Println_then, run_bind.
  assert (Hpre : run handle (if hn fl then PrintHostName else ret tt) w
                 = MkRun (Returned tt)
                     (if hn fl then hostname_lines (fst (reply handle os_Hostname w)) else [])
                     (if hn fl then [os_Hostname] else []) w1).
  { subst w1. destruct (hn fl).
    - now rewrite run_PrintHostName, Hh.
    - reflexivity. }
  rewrite Hpre. unfold then_run. cbn [result final stdout calls].
  rewrite !run_bind, run_PrintSysInfo, Hs.
  unfold then_run. cbn [result final stdout calls]. fold w2.
  rewrite run_PrintCPUInfo, Hc. cbn [result final stdout calls]. fold w3.
  fold rest.
  rewrite <- !app_assoc. reflexivity.
Qed.
End MainRuns.

(* ===================================================================== *)
(** * Facts about [float64] arithmetic

    [SpecFloat] comes without lemmas; what is needed about the conversion
    of an unsigned integer and about division by a power of two is proved
    here, from the number of bits of a mantissa. *)

Lemma digits2_pos_size (p : positive) : digits2_pos p = Pos.size p.
Proof. induction p; simpl; congruence. Qed.

Lemma digits2_pos_lower (p : positive) : 2 ^ (Z.pos (digits2_pos p) - 1) <= Z.pos p.
Proof.
  rewrite digits2_pos_size. pose proof (Pos.size_le p) as H.
  apply Pos2Z.pos_le_pos in H. rewrite Pos2Z.inj_pow in H.
  change (Z.pos p~0) with (2 * Z.pos p) in H.
  replace (Z.pos (Pos.size p)) with (Z.succ (Z.pos (Pos.size p) - 1)) in H by lia.
  rewrite Z.pow_succ_r in H by lia. lia.
Qed.

Lemma digits2_pos_shift (k p : positive) :
  digits2_pos (Pos.iter xO p k) = (digits2_pos p + k)%positive.
Proof.
  induction k as [|k IH] using Pos.peano_ind.
  - simpl. lia.
  - rewrite Pos.iter_succ. simpl. rewrite IH. lia.
Qed.

Lemma Zpos_shift (k p : positive) :
  Z.pos (Pos.iter xO p k) = Z.pos p * 2 ^ Z.pos k.
Proof.
  induction k as [|k IH] using Pos.peano_ind.
  - simpl. lia.
  - rewrite Pos.iter_succ, Pos2Z.inj_succ, Z.pow_succ_r by lia.
    change (Z.pos (Pos.iter xO p k)~0) with (2 * Z.pos (Pos.iter xO p k)).
    rewrite IH. lia.
Qed.

Lemma digits2_pos_succ (p : positive) :
  digits2_pos (Pos.succ p) = digits2_pos p
  \/ digits2_pos (Pos.succ p) = Pos.succ (digits2_pos p).
Proof.
  induction p as [p IH | p IH |]; simpl.
  - destruct IH as [-> | ->]; auto.
  - auto.
  - auto.
Qed.

Lemma shr_1_pos (p : positive) (r s : bool) :
  (1 < digits2_pos p)%positive ->
  exists p' r' s',
    shr_1 (Build_shr_record (Z.pos p) r s) = Build_shr_record (Z.pos p') r' s'
    /\ Z.pos (digits2_pos p') = Z.pos (digits2_pos p) - 1.
Proof.
  intros H. destruct p as [p | p |].
  - exists p, true, (r || s)%bool. split; [reflexivity | cbn [digits2_pos]; lia].
  - exists p, false, (r || s)%bool. split; [reflexivity | cbn [digits2_pos]; lia].
  - simpl in H. lia.
Qed.

Lemma iter_shr_1_pos (k : positive) :
  forall (p : positive) (r s : bool),
    (k < digits2_pos p)%positive ->
    exists p' r' s',
      iter_pos shr_1 k (Build_shr_record (Z.pos p) r s) = Build_shr_record (Z.pos p') r' s'
      /\ Z.pos (digits2_pos p') = Z.pos (digits2_pos p) - Z.pos k.
Proof.
  induction k as [k IH | k IH |]; intros p r s Hk.
  - destruct (shr_1_pos p r s) as (p1 & r1 & s1 & E1 & D1); [lia|].
    destruct (IH p1 r1 s1) as (p2 & r2 & s2 & E2 & D2); [lia|].
    destruct (IH p2 r2 s2) as (p3 & r3 & s3 & E3 & D3); [lia|].
    exists p3, r3, s3. cbn [iter_pos]. rewrite E1, E2, E3. split; [reflexivity | lia].
  - destruct (IH p r s) as (p2 & r2 & s2 & E2 & D2); [lia|].
    destruct (IH p2 r2 s2) as (p3 & r3 & s3 & E3 & D3); [lia|].
    exists p3, r3, s3. cbn [iter_pos]. rewrite E2, E3. split; [reflexivity | lia].
  - destruct (shr_1_pos p r s) as (p1 & r1 & s1 & E1 & D1); [lia|].
    exists p1, r1, s1. split; [exact E1 | lia].
Qed.

Lemma fexp64 (x : Z) : fexp f64_prec f64_emax x = Z.max (x - 53) (-1074).
Proof. reflexivity. Qed.

Lemma shr_fexp_keep (m e : Z) (l : location) :
  fexp f64_prec f64_emax (Zdigits2 m + e) <= e ->
  shr_fexp f64_prec f64_emax m e l = (shr_record_of_loc m l, e).
Proof.
  intros H. unfold shr_fexp, shr.
  destruct (fexp f64_prec f64_emax (Zdigits2 m + e) - e) eqn:E; try reflexivity.
  lia.
Qed.

Lemma shr_fexp_shift (m e : Z) (l : location) (k : positive) :
  fexp f64_prec f64_emax (Zdigits2 m + e) - e = Z.pos k ->
  shr_fexp f64_prec f64_emax m e l
  = (iter_pos shr_1 k (shr_record_of_loc m l), e + Z.pos k).
Proof. intros H. unfold shr_fexp, shr. now rewrite H. Qed.

(** A mantissa of 53 bits with an exponent in range is left as it is. *)
Lemma binary_round_aux_canonical (s : bool) (m : positive) (e : Z) :
  digits2_pos m = 53%positive ->
  -1074 <= e <= 971 ->
  binary_round_aux f64_prec f64_emax s (Z.pos m) e loc_Exact = S754_finite s m e.
Proof.
  intros Hd He. unfold binary_round_aux.
  rewrite shr_fexp_keep by (rewrite fexp64; cbn [Zdigits2]; rewrite Hd; lia).
  cbn [shr_record_of_loc shr_m loc_of_shr_record round_nearest_even].
  rewrite shr_fexp_keep by (rewrite fexp64; cbn [Zdigits2]; rewrite Hd; lia).
  cbn [shr_record_of_loc shr_m].
  replace (e <=? f64_emax - f64_prec) with true; [reflexivity|].
  symmetry. apply Z.leb_le. unfold f64_emax, f64_prec. lia.
Qed.

Lemma round_nearest_even_pos (p : positive) (l : location) :
  round_nearest_even (Z.pos p) l = Z.pos p
  \/ round_nearest_even (Z.pos p) l = Z.pos (Pos.succ p).
Proof.
  destruct l as [|[| |]]; simpl; auto.
  - destruct p; simpl; auto.
  - right. lia.
Qed.

(** Rounding a positive integer mantissa whose exponent is between 0 and 11 *)
Lemma binary_round_aux_wide (p : positive) :
  53 < Z.pos (digits2_pos p) <= 64 ->
  canonical64 (binary_round_aux f64_prec f64_emax false (Z.pos p) 0 loc_Exact).
Proof.
  intros Hd. unfold binary_round_aux.
  assert (Hk : exists k, Z.pos (digits2_pos p) - 53 = Z.pos k).
  { destruct (Z.pos (digits2_pos p) - 53) as [|k|k] eqn:E; try lia. now exists k. }
  destruct Hk as [k Hk].
  rewrite (shr_fexp_shift _ _ _ k)
    by (rewrite fexp64; cbn [Zdigits2]; lia).
  cbn [shr_record_of_loc].
  destruct (iter_shr_1_pos k p false false) as (p1 & r1 & s1 & E1 & D1); [lia|].
  rewrite E1. cbn [shr_m].
  set (l1 := loc_of_shr_record _).
  assert (Hd1 : Z.pos (digits2_pos p1) = 53) by lia.
  destruct (round_nearest_even_pos p1 l1) as [-> | ->].
  - rewrite shr_fexp_keep by (rewrite fexp64; cbn [Zdigits2]; lia).
    cbn [shr_record_of_loc shr_m].
    replace (0 + Z.pos k <=? f64_emax - f64_prec) with true
      by (symmetry; apply Z.leb_le; unfold f64_emax, f64_prec; lia).
    exists p1, (0 + Z.pos k). repeat split; lia.
  - destruct (digits2_pos_succ p1) as [Hs | Hs].
    + rewrite shr_fexp_keep by (rewrite fexp64; cbn [Zdigits2]; lia).
      cbn [shr_record_of_loc shr_m].
      replace (0 + Z.pos k <=? f64_emax - f64_prec) with true
        by (symmetry; apply Z.leb_le; unfold f64_emax, f64_prec; lia).
      exists (Pos.succ p1), (0 + Z.pos k). repeat split; lia.
    + rewrite (shr_fexp_shift _ _ _ 1)
        by (rewrite fexp64; cbn [Zdigits2]; lia).
      cbn [shr_record_of_loc iter_pos].
      destruct (shr_1_pos (Pos.succ p1) false false) as (p2 & r2 & s2 & E2 & D2); [lia|].
      rewrite E2. cbn [shr_m].
      replace (0 + Z.pos k + 1 <=? f64_emax - f64_prec) with true
        by (symmetry; apply Z.leb_le; unfold f64_emax, f64_prec; lia).
      exists p2, (0 + Z.pos k + 1). repeat split; lia.
Qed.

Lemma float64_of_uint64_small (p : positive) :
  Z.pos (digits2_pos p) <= 53 ->
  exists (m : positive) (e : Z),
    float64_of_uint64 (Z.pos p) = S754_finite false m e
    /\ digits2_pos m = 53%positive /\ -52 <= e <= 0
    /\ Z.pos m = Z.pos p * 2 ^ (- e).
Proof.
  intros Hd. unfold float64_of_uint64, binary_normalize, binary_round, shl_align.
  rewrite fexp64.
  destruct (Z.max (Z.pos (digits2_pos p) + 0 - 53) (-1074) - 0) as [|k|k] eqn:E; try lia.
  - rewrite binary_round_aux_canonical by lia.
    exists p, 0. repeat split; lia.
  - pose proof (digits2_pos_shift k p) as Hs.
    rewrite binary_round_aux_canonical by lia.
    exists (Pos.iter xO p k), (Z.max (Z.pos (digits2_pos p) + 0 - 53) (-1074)).
    repeat split; try lia.
    rewrite Zpos_shift. f_equal. f_equal. lia.
Qed.

Lemma float64_of_uint64_canonical (n : Z) :
  0 < n <= uint64_max -> canonical64 (float64_of_uint64 n).
Proof.
  intros [Hpos Hmax]. destruct n as [|p|p]; try lia.
  destruct (Z_le_gt_dec (Z.pos (digits2_pos p)) 53) as [Hd | Hd].
  - destruct (float64_of_uint64_small p Hd) as (m & e & E & D & He & _).
    exists m, e. repeat split; (exact E || exact D || lia).
  - unfold float64_of_uint64, binary_normalize, binary_round, shl_align.
    rewrite fexp64.
    assert (Hd64 : Z.pos (digits2_pos p) <= 64).
    { pose proof (digits2_pos_lower p) as Hl. unfold uint64_max in Hmax.
      destruct (Z_le_gt_dec (Z.pos (digits2_pos p)) 64) as [|Hgt]; [assumption|].
      assert (2 ^ 64 <= 2 ^ (Z.pos (digits2_pos p) - 1)) by (apply Z.pow_le_mono_r; lia).
      lia. }
    destruct (Z.max (Z.pos (digits2_pos p) + 0 - 53) (-1074) - 0) as [|k|k] eqn:E; try lia.
    apply binary_round_aux_wide. lia.
Qed.

Lemma scale_as_float64 :
  float64_of_uint64 SYSINFO_LOADS_SCALE = S754_finite false 4503599627370496 (-36).
Proof. reflexivity. Qed.

Lemma div_eucl_exact (a b q : Z) :
  0 < b -> a = b * q -> Z.div_eucl a b = (q, 0).
Proof.
  intros Hb Ha. pose proof (Z_div_mod a b ltac:(lia)) as H.
  destruct (Z.div_eucl a b) as [q' r']. destruct H as [H1 H2].
  assert (q' = q) by nia. subst q'. f_equal. lia.
Qed.

(** Dividing a canonical [float64] by 65536.0 lowers its exponent by 16
    and leaves its mantissa alone. *)
Lemma float64_div_scale (m : positive) (e : Z) :
  digits2_pos m = 53%positive ->
  -1000 <= e <= 900 ->
  float64_div (S754_finite false m e) (float64_of_uint64 SYSINFO_LOADS_SCALE)
  = S754_finite false m (e - 16).
Proof.
  intros Hd He. rewrite scale_as_float64.
  unfold float64_div, SFdiv, SFdiv_core_binary.
  cbn [Zdigits2]. rewrite Hd.
  change (Z.pos (digits2_pos 4503599627370496)) with 53.
  rewrite fexp64.
  replace (Z.min (Z.max (53 + e - (53 + -36) - 53) (-1074)) (e - -36)) with (e - 17) by lia.
  replace (e - -36 - (e - 17)) with 53 by lia.
  rewrite (div_eucl_exact (Z.shiftl (Z.pos m) 53) 4503599627370496 (Z.pos m~0))
    by (rewrite ?Z.shiftl_mul_pow2; lia).
  change (new_location 4503599627370496 0) with loc_Exact.
  cbn [xorb]. unfold binary_round_aux.
  rewrite (shr_fexp_shift _ _ _ 1)
    by (rewrite fexp64; cbn [Zdigits2 digits2_pos]; rewrite Hd; lia).
  cbn [shr_record_of_loc iter_pos shr_1 shr_m loc_of_shr_record round_nearest_even orb].
  rewrite shr_fexp_keep by (rewrite fexp64; cbn [Zdigits2]; rewrite Hd; lia).
  cbn [shr_record_of_loc shr_m].
  replace (e - 17 + 1 <=? f64_emax - f64_prec) with true
    by (symmetry; apply Z.leb_le; unfold f64_emax, f64_prec; lia).
  f_equal. lia.
Qed.

(** The load average computed from a positive raw value: a canonical
    positive number, the converted raw value with its exponent lowered by
    16. *)
Lemma load_of_pos (raw : Z) :
  0 < raw <= uint64_max ->
  exists (m : positive) (e : Z),
    float64_of_uint64 raw = S754_finite false m e
    /\ load_of raw = S754_finite false m (e - 16)
    /\ digits2_pos m = 53%positive /\ -52 <= e <= 12.
Proof.
  intros Hraw. destruct (float64_of_uint64_canonical raw Hraw) as (m & e & E & D & He).
  exists m, e. unfold load_of. rewrite E, float64_div_scale by (exact D || lia).
  repeat split; (exact D || lia).
Qed.

Lemma float64_value_scale (m : positive) (e : Z) :
  (float64_value (S754_finite false m (e - 16))
   == float64_value (S754_finite false m e) / inject_Z SYSINFO_LOADS_SCALE)%Q.
Proof.
  unfold float64_value.
  replace (e - 16) with (e + -16) by lia.
  rewrite Qpower_plus by discriminate.
  change ((2 # 1) ^ (-16))%Q with (/ inject_Z SYSINFO_LOADS_SCALE)%Q.
  unfold Qdiv. ring.
Qed.

Lemma float64_value_exact (p : positive) :
  Z.pos p < 2 ^ 53 ->
  (float64_value (float64_of_uint64 (Z.pos p)) == inject_Z (Z.pos p))%Q.
Proof.
  intros Hp.
  assert (Hd : Z.pos (digits2_pos p) <= 53).
  { pose proof (digits2_pos_lower p) as Hl.
    destruct (Z_le_gt_dec (Z.pos (digits2_pos p)) 53) as [|Hgt]; [assumption|].
    assert (2 ^ 53 <= 2 ^ (Z.pos (digits2_pos p) - 1)) by (apply Z.pow_le_mono_r; lia).
    lia. }
  destruct (float64_of_uint64_small p Hd) as (m & e & E & D & He & Hm).
  rewrite E. unfold float64_value. rewrite Hm.
  rewrite inject_Z_mult, Zpower_Qpower by lia.
  change (inject_Z 2) with (2 # 1)%Q.
  rewrite <- Qmult_assoc, <- Qpower_plus by discriminate.
  replace (- e + e) with 0 by lia. simpl. ring.
Qed.

Lemma float64_value_nonneg (m : positive) (e : Z) :
  (0 <= float64_value (S754_finite false m e))%Q.
Proof.
  unfold float64_value. apply Qmult_le_0_compat.
  - unfold Qle. simpl. lia.
  - apply Qpower_0_le. discriminate.
Qed.

(** Every load average is computed as the specification says. *)
Lemma load_of_converted (raw : Z) :
  is_uint64 raw -> load_converted raw (load_of raw).
Proof.
  intros [Hlo Hhi]. split; [reflexivity|].
  destruct (Z.eq_dec raw 0) as [-> | Hnz].
  - split; [reflexivity | intros _; reflexivity].
  - destruct (load_of_pos raw) as (m & e & E & L & D & He); [lia|].
    rewrite L. split.
    + rewrite E. apply float64_value_scale.
    + intros Hsmall. rewrite float64_value_scale, <- E.
      destruct raw as [|p|p]; try lia.
      now rewrite float64_value_exact.
Qed.

Lemma load_of_nonneg (raw : Z) :
  is_uint64 raw ->
  float64_nonneg (load_of raw) = true /\ (0 <= float64_value (load_of raw))%Q.
Proof.
  intros [Hlo Hhi]. destruct (Z.eq_dec raw 0) as [-> | Hnz].
  - split; [reflexivity | discriminate].
  - destruct (load_of_pos raw) as (m & e & E & L & D & He); [lia|].
    rewrite L. split; [reflexivity | apply float64_value_nonneg].
Qed.

(** Every memory field is computed as the specification says, and stays
    in the range of its type. *)
Lemma mem_of_converted (bytes : Z) :
  is_uint64 bytes ->
  mem_converted bytes (bytes / SYSINFO_MEM_UNIT)
  /\ is_uint64 (bytes / SYSINFO_MEM_UNIT).
Proof.
  unfold is_uint64, uint64_max, mem_converted.
  change SYSINFO_MEM_UNIT with 1048576. intros [Hlo Hhi].
  pose proof (Z.div_mod bytes 1048576 ltac:(lia)) as Hdm.
  pose proof (Z.mod_pos_bound bytes 1048576 ltac:(lia)) as Hmod.
  repeat split; lia.
Qed.

(* ===================================================================== *)
(** * The properties of the specification *)

(** C1 (the source departs from this claim).  The claim asks that
    [--network] on a host whose interface enumeration succeeds with an
    empty list reports "no interfaces found" or an empty list.  The source
    instead reads [ifaces[0]] unchecked: once the argument count has been
    printed and the enumeration made, the run panics with an index out of
    range and no report is written. *)
Theorem network_report_panics_without_interfaces :
  forall (GOOS GOARCH prog : string) (W : Type)
         (handle : forall q : query, W -> answer q * W) (w : W),
    reply handle net_Interfaces w = ([], None) ->
    run handle (main GOOS GOARCH [prog; "--network"]) w
    = MkRun (Panicked (IndexOutOfRange 0 0)) [Println [VInt 2]]
        [net_Interfaces] (next handle net_Interfaces w).
Proof.
  intros GOOS GOARCH prog W handle w Hempty.
  rewrite (main_with_arguments GOOS GOARCH [prog; "--network"]
             {| hn := false; OS := false; cpu := false; netw := true |}
             eq_refl eq_refl).
  cbn [hn OS cpu netw]. rewrite run_Println_then, !bind_ret_l.
  rewrite run_PrintNetworkInterface, Hempty. reflexivity.
Qed.

Lemma network_report_panics_without_interfaces_witness :
  run (Sample.host [] Sample.healthy)
      (main "linux" "amd64" ["machineInfo"; "--network"]) 0%nat
  = MkRun (Panicked (IndexOutOfRange 0 0)) [Println [VInt 2]] [net_Interfaces] 1%nat.
Proof.
  exact (network_report_panics_without_interfaces "linux" "amd64" "machineInfo"
           nat (Sample.host [] Sample.healthy) 0%nat eq_refl).
Defined.

(** C2.  Invoked with no argument, [main] is the argument-count line
    followed by the five reporters host name, network interfaces, OS
    name, system statistics and CPU, in that order, and nothing after
    them.  On every host the run goes through them in that order: it
    returns, having written the five sections and made the four queries
    in order, unless one of the reporters panics (a failed query, or no
    interface to show), which ends it on the spot. *)
Theorem no_arguments_runs_five_reporters :
  forall (GOOS GOARCH prog : string),
    main GOOS GOARCH [prog]
    = (fmt_Println [VInt 1] ;;
       PrintHostName ;;
       PrintNetworkInterface ;;
       PrintOSName GOOS GOARCH ;;
       PrintSysInfo ;;
       PrintCPUInfo)
    /\ forall (W : Type) (handle : forall q : query, W -> answer q * W) (w : W),
         let w1 := next handle os_Hostname w in
         let w2 := next handle net_Interfaces w1 in
         let w3 := next handle syscall_Sysinfo w2 in
         let w4 := next handle cpu_Info w3 in
         let hostN := fst (reply handle os_Hostname w) in
         let ifaces := fst (reply handle net_Interfaces w1) in
         let sys_obj := sys_of (fst (reply handle syscall_Sysinfo w2)) in
         let cpu_info := fst (reply handle cpu_Info w3) in
         let count := Println [VInt 1] in
         run handle (main GOOS GOARCH [prog]) w
         = match snd (reply handle os_Hostname w) with
           | Some e => MkRun (Panicked (PanicError e)) [count] [os_Hostname] w1
           | None =>
           match snd (reply handle net_Interfaces w1), ifaces with
           | Some e, _ =>
               MkRun (Panicked (PanicError e)) (count :: hostname_lines hostN)
                 [os_Hostname; net_Interfaces] w2
           | None, [] =>
               MkRun (Panicked (IndexOutOfRange 0 0)) (count :: hostname_lines hostN)
                 [os_Hostname; net_Interfaces] w2
           | None, _ :: _ =>
           match snd (reply handle syscall_Sysinfo w2) with
           | Some e =>
               MkRun (Panicked (PanicError e))
                 (count :: hostname_lines hostN ++ network_lines ifaces
                  ++ osname_lines GOOS GOARCH)
                 [os_Hostname; net_Interfaces; syscall_Sysinfo] w3
           | None =>
           match snd (reply handle cpu_Info w3) with
           | Some e =>
               MkRun (Panicked (PanicError e))
                 (count :: hostname_lines hostN ++ network_lines ifaces
                  ++ osname_lines GOOS GOARCH ++ sys_lines sys_obj)
                 [os_Hostname; net_Interfaces; syscall_Sysinfo; cpu_Info] w4
           | None =>
               MkRun (Returned tt)
                 (count :: hostname_lines hostN ++ network_lines ifaces
                  ++ osname_lines GOOS GOARCH ++ sys_lines sys_obj
                  ++ cpu_report cpu_info)
                 [os_Hostname; net_Interfaces; syscall_Sysinfo; cpu_Info] w4
           end end end end.
Proof.
  intros GOOS GOARCH prog. split; [apply main_no_arguments|].
  intros W handle w w1 w2 w3 w4 hostN ifaces sys_obj cpu_info count.
  subst w1 w2 w3 w4 hostN ifaces sys_obj cpu_info count.
  rewrite main_no_arguments, run_Println_then, run_bind, run_PrintHostName.
  destruct (snd (reply handle os_Hostname w)) as [e|]; [reflexivity|].
  unfold then_run. cbn [result final stdout calls].
  rewrite run_bind, run_PrintNetworkInterface.
  destruct (snd (reply handle net_Interfaces _)) as [e|]; [reflexivity|].
  destruct (fst (reply handle net_Interfaces _)) as [|first others]; [reflexivity|].
  unfold then_run. cbn [result final stdout calls].
  rewrite run_bind, run_PrintOSName.
  unfold then_run. cbn [result final stdout calls].
  rewrite run_bind, run_PrintSysInfo.
  destruct (snd (reply handle syscall_Sysinfo _)) as [e|]; [reflexivity|].
  unfold then_run. cbn [result final stdout calls].
  rewrite run_PrintCPUInfo.
  destruct (snd (reply handle cpu_Info _)) as [e|]; reflexivity.
Qed.

Lemma no_arguments_runs_five_reporters_witness :
  run (Sample.host [Sample.lo; Sample.eth0] Sample.healthy)
      (main "linux" "amd64" ["machineInfo"]) 0%nat
  = MkRun (Returned tt)
      (Println [VInt 1]
       :: hostname_lines "box"
       ++ network_lines [Sample.lo; Sample.eth0]
       ++ osname_lines "linux" "amd64"
       ++ sys_lines (sys_of Sample.info)
       ++ cpu_report [Sample.core 0; Sample.core 1])
      [os_Hostname; net_Interfaces; syscall_Sysinfo; cpu_Info]
      4%nat
  /\ run (Sample.host [Sample.lo; Sample.eth0] (Sample.only syscall_Sysinfo))
        (main "linux" "amd64" ["machineInfo"]) 0%nat
     = MkRun (Panicked (PanicError "operation not permitted"))
         (Println [VInt 1]
          :: hostname_lines "box"
          ++ network_lines [Sample.lo; Sample.eth0]
          ++ osname_lines "linux" "amd64")
         [os_Hostname; net_Interfaces; syscall_Sysinfo]
         3%nat.
Proof.
  split.
  - exact (proj2 (no_arguments_runs_five_reporters "linux" "amd64" "machineInfo")
             nat (Sample.host [Sample.lo; Sample.eth0] Sample.healthy) 0%nat).
  - exact (proj2 (no_arguments_runs_five_reporters "linux" "amd64" "machineInfo")
             nat (Sample.host [Sample.lo; Sample.eth0] (Sample.only syscall_Sysinfo))
             0%nat).
Defined.

(** C3.  When the system-information query succeeds, each of the three
    load averages of the record that [GetSysInfo] returns is the raw
    kernel value converted to [float64] and divided by 65536.0, a quotient
    that is exact (and equal to raw/65536 when the raw value is below
    2^53, where the conversion is exact too); and each of the eight
    memory fields is the byte count divided by 1,048,576 and rounded
    down. *)
Theorem sysinfo_conversions :
  forall (W : Type) (handle : forall q : query, W -> answer q * W) (w : W)
         (sys_ref : Sysinfo_t),
    reply handle syscall_Sysinfo w = (sys_ref, None) ->
    Sysinfo_wf sys_ref ->
    exists sys_obj : sys_t,
      result (run handle GetSysInfo w) = Returned sys_obj
      /\ (float64_value (S754_finite false 4503599627370496 (-36)) == 65536 # 1)%Q
      /\ load_converted (at0 (Loads_raw sys_ref)) (at0 (Loads sys_obj))
      /\ load_converted (at1 (Loads_raw sys_ref)) (at1 (Loads sys_obj))
      /\ load_converted (at2 (Loads_raw sys_ref)) (at2 (Loads sys_obj))
      /\ mem_converted (Totalram sys_ref) (TotalRam sys_obj)
      /\ mem_converted (Freeram sys_ref) (FreeRam sys_obj)
      /\ mem_converted (Sharedram sys_ref) (SharedRam sys_obj)
      /\ mem_converted (Bufferram sys_ref) (BufferRam sys_obj)
      /\ mem_converted (Totalswap sys_ref) (TotalSwap sys_obj)
      /\ mem_converted (Freeswap sys_ref) (FreeSwap sys_obj)
      /\ mem_converted (Totalhigh sys_ref) (TotalHigh sys_obj)
      /\ mem_converted (Freehigh sys_ref) (FreeHigh sys_obj).
Proof.
  intros W handle w sys_ref Hreply Hwf. exists (sys_of sys_ref).
  rewrite run_GetSysInfo, Hreply. destruct Hwf.
  split; [reflexivity|]. split; [reflexivity|].
  cbn [sys_of Loads at0 at1 at2 TotalRam FreeRam SharedRam BufferRam TotalSwap
       FreeSwap TotalHigh FreeHigh].
  repeat match goal with
         | |- _ /\ _ => split
         | |- load_converted _ _ => now apply load_of_converted
         | |- mem_converted _ _ => now apply mem_of_converted
         end.
Qed.

Lemma sysinfo_conversions_witness :
  exists sys_obj : sys_t,
    result (run (Sample.host [] Sample.healthy) GetSysInfo 0%nat) = Returned sys_obj
    /\ load_converted 98304 (at1 (Loads sys_obj))
    /\ mem_converted (8 * 1024 * 1024 * 1024 + 5) (TotalRam sys_obj)
    /\ TotalRam sys_obj = 8192
    /\ SharedRam sys_obj = 0.
Proof.
  destruct (sysinfo_conversions nat (Sample.host [] Sample.healthy) 0%nat
              Sample.info eq_refl)
    as (sys_obj & Hrun & _ & _ & Hl1 & _ & Hm & _ & Hsh & _).
  - constructor; vm_compute; split; discriminate.
  - exists sys_obj. split; [exact Hrun|]. split; [exact Hl1|]. split; [exact Hm|].
    split; [exact (proj1 Hm) | exact (proj1 Hsh)].
Defined.

(** C4.  Each of [GetHostName], [GetSysInfo], [GetCPUInfo] and
    [GetNetworkInterface] issues its query exactly once and writes
    nothing; it panics if and only if the query returned an error, with
    that error and whatever value came with it.  Otherwise it returns
    what the query yielded and nothing else: the host name, the list of
    CPU records and the list of interfaces as they are, and for
    [GetSysInfo] the record every field of which comes from the kernel's
    record (uptime and process count copied, each load average the raw
    value converted to [float64] and divided by 65536.0, each memory field
    the byte count divided by 1,048,576). *)
Theorem query_functions_abort_iff_error :
  forall (W : Type) (handle : forall q : query, W -> answer q * W),
    fatal_on_error handle os_Hostname (fun hostN => hostN) GetHostName
    /\ fatal_on_error handle syscall_Sysinfo
         (fun sys_ref =>
            {| UpTime    := Uptime sys_ref;
               Loads     :=
                 Array3
                   (float64_div (float64_of_uint64 (at0 (Loads_raw sys_ref)))
                      (S754_finite false 4503599627370496 (-36)))
                   (float64_div (float64_of_uint64 (at1 (Loads_raw sys_ref)))
                      (S754_finite false 4503599627370496 (-36)))
                   (float64_div (float64_of_uint64 (at2 (Loads_raw sys_ref)))
                      (S754_finite false 4503599627370496 (-36)));
               TotalRam  := Totalram sys_ref / 1048576;
               FreeRam   := Freeram sys_ref / 1048576;
               SharedRam := Sharedram sys_ref / 1048576;
               BufferRam := Bufferram sys_ref / 1048576;
               TotalSwap := Totalswap sys_ref / 1048576;
               FreeSwap  := Freeswap sys_ref / 1048576;
               Procs     := Procs_raw sys_ref;
               TotalHigh := Totalhigh sys_ref / 1048576;
               FreeHigh  := Freehigh sys_ref / 1048576 |})
         GetSysInfo
    /\ fatal_on_error handle cpu_Info (fun cpu_info => cpu_info) GetCPUInfo
    /\ fatal_on_error handle net_Interfaces (fun ifaces => ifaces) GetNetworkInterface.
Proof.
  intros W handle.
  assert (Hgen : forall (A : Type) q (f : payload q -> A) (p : Go A),
             (forall w, run handle p w
                        = MkRun match snd (reply handle q w) with
                                | Some e => Panicked (PanicError e)
                                | None => Returned (f (fst (reply handle q w)))
                                end [] [q] (next handle q w)) ->
             fatal_on_error handle q f p).
  { intros A q f p Hrun w a r. subst a r. rewrite Hrun. cbn [result stdout calls final].
    repeat split.
    - intros [v Hv]. destruct (snd (reply handle q w)) as [e|]; [eauto | discriminate].
    - intros [e He]. rewrite He. eauto.
    - intros e He. now rewrite He.
    - intros He. now rewrite He. }
  split; [|split; [|split]]; apply Hgen; intros w.
  - apply run_GetHostName.
  - rewrite run_GetSysInfo.
    destruct (snd (reply handle syscall_Sysinfo w)); [reflexivity|].
    unfold sys_of, load_of. rewrite scale_as_float64. reflexivity.
  - apply run_GetCPUInfo.
  - apply run_GetNetworkInterface.
Qed.

Lemma query_functions_abort_iff_error_witness :
  result (run (Sample.host [] (Sample.only os_Hostname)) GetHostName 0%nat)
  = Panicked (PanicError "operation not permitted")
  /\ result (run (Sample.host [] Sample.healthy) GetHostName 0%nat)
     = Returned "box"
  /\ result (run (Sample.host [] Sample.healthy) GetSysInfo 0%nat)
     = Returned
         {| UpTime    := 86400;
            Loads     := Array3 (S754_finite false 4503599627370496 (-52))
                                (S754_finite false 6755399441055744 (-52))
                                (S754_zero false);
            TotalRam  := 8192;
            FreeRam   := 3072;
            SharedRam := 0;
            BufferRam := 1;
            TotalSwap := 2048;
            FreeSwap  := 2048;
            Procs     := 213;
            TotalHigh := 0;
            FreeHigh  := 0 |}
  /\ result (run (Sample.host [] (Sample.only syscall_Sysinfo)) GetSysInfo 0%nat)
     = Panicked (PanicError "operation not permitted")
  /\ result (run (Sample.host [] Sample.healthy) GetCPUInfo 0%nat)
     = Returned [Sample.core 0; Sample.core 1]
  /\ result (run (Sample.host [] (Sample.only cpu_Info)) GetCPUInfo 0%nat)
     = Panicked (PanicError "operation not permitted")
  /\ result (run (Sample.host [Sample.lo; Sample.eth0] Sample.healthy)
               GetNetworkInterface 0%nat)
     = Returned [Sample.lo; Sample.eth0]
  /\ result (run (Sample.host [Sample.lo; Sample.eth0] (Sample.only net_Interfaces))
               GetNetworkInterface 0%nat)
     = Panicked (PanicError "operation not permitted").
Proof.
  pose (on_error := fun (A : Type) q (f : payload q -> A) (p : Go A) failing ifaces
                        (H : fatal_on_error (Sample.host ifaces failing) q f p) =>
                      proj1 (proj2 (proj2 (proj2 (proj2 (H 0%nat)))))).
  pose (on_success := fun (A : Type) q (f : payload q -> A) (p : Go A) failing ifaces
                          (H : fatal_on_error (Sample.host ifaces failing) q f p) =>
                        proj2 (proj2 (proj2 (proj2 (proj2 (H 0%nat)))))).
  refine (conj _ (conj _ (conj _ (conj _ (conj _ (conj _ (conj _ _))))))).
  - exact (on_error _ _ _ _ _ _
             (proj1 (query_functions_abort_iff_error nat
                       (Sample.host [] (Sample.only os_Hostname)))) _ eq_refl).
  - exact (on_success _ _ _ _ _ _
             (proj1 (query_functions_abort_iff_error nat
                       (Sample.host [] Sample.healthy))) eq_refl).
  - exact (on_success _ _ _ _ _ _
             (proj1 (proj2 (query_functions_abort_iff_error nat
                              (Sample.host [] Sample.healthy)))) eq_refl).
  - exact (on_error _ _ _ _ _ _
             (proj1 (proj2 (query_functions_abort_iff_error nat
                              (Sample.host [] (Sample.only syscall_Sysinfo))))) _ eq_refl).
  - exact (on_success _ _ _ _ _ _
             (proj1 (proj2 (proj2 (query_functions_abort_iff_error nat
                                     (Sample.host [] Sample.healthy))))) eq_refl).
  - exact (on_error _ _ _ _ _ _
             (proj1 (proj2 (proj2 (query_functions_abort_iff_error nat
                                     (Sample.host [] (Sample.only cpu_Info)))))) _ eq_refl).
  - exact (on_success _ _ _ _ _ _
             (proj2 (proj2 (proj2 (query_functions_abort_iff_error nat
                                     (Sample.host [Sample.lo; Sample.eth0]
                                        Sample.healthy))))) eq_refl).
  - exact (on_error _ _ _ _ _ _
             (proj2 (proj2 (proj2 (query_functions_abort_iff_error nat
                                     (Sample.host [Sample.lo; Sample.eth0]
                                        (Sample.only net_Interfaces)))))) _ eq_refl).
Defined.

(** C5 (counterexample).  With [--hostname] alone on a host named "box",
    standard output is not just the host-name line: the argument count
    comes first. *)
Lemma hostname_flag_output_has_count_line :
  flag_Parse ["machineInfo"; "--hostname"]
  = ret {| hn := true; OS := false; cpu := false; netw := false |}
  /\ reply (Sample.host [Sample.lo] Sample.healthy) os_Hostname 0%nat = ("box", None)
  /\ stdout (run (Sample.host [Sample.lo] Sample.healthy)
               (main "linux" "amd64" ["machineInfo"; "--hostname"]) 0%nat)
     = Println [VInt 2] :: hostname_lines "box"
  /\ stdout (run (Sample.host [Sample.lo] Sample.healthy)
               (main "linux" "amd64" ["machineInfo"; "--hostname"]) 0%nat)
     <> hostname_lines "box".
Proof.
  split; [reflexivity|]. split; [reflexivity|]. split; [reflexivity|].
  discriminate.
Qed.

(** C5 (amended).  When the command line sets only the [hostname] flag,
    the program makes the host-name query and no other, and its entire
    standard output is the argument-count line that [main] prints first,
    followed by the host-name line if the query succeeds: no other report
    section and no other line. *)
Theorem hostname_flag_output :
  forall (GOOS GOARCH : string) (os_Args : list string) (W : Type)
         (handle : forall q : query, W -> answer q * W) (w : W),
    flag_Parse os_Args
    = ret {| hn := true; OS := false; cpu := false; netw := false |} ->
    run handle (main GOOS GOARCH os_Args) w
    = match snd (reply handle os_Hostname w) with
      | None =>
          MkRun (Returned tt)
            (Println [VInt (len os_Args)]
             :: hostname_lines (fst (reply handle os_Hostname w)))
            [os_Hostname] (next handle os_Hostname w)
      | Some e =>
          MkRun (Panicked (PanicError e)) [Println [VInt (len os_Args)]]
            [os_Hostname] (next handle os_Hostname w)
      end.
Proof.
  intros GOOS GOARCH os_Args W handle w Hparse.
  rewrite (main_with_arguments GOOS GOARCH os_Args _ Hparse)
    by (now apply (flag_on_needs_argument os_Args _ Hparse)).
  cbn [hn OS cpu netw]. rewrite run_Println_then, run_bind, run_PrintHostName.
  now destruct (snd (reply handle os_Hostname w)).
Qed.

Lemma hostname_flag_output_witness :
  run (Sample.host [Sample.lo] Sample.healthy)
      (main "linux" "amd64" ["machineInfo"; "-hostname=true"]) 0%nat
  = MkRun (Returned tt) (Println [VInt 2] :: hostname_lines "box") [os_Hostname] 1%nat.
Proof.
  exact (hostname_flag_output "linux" "amd64" ["machineInfo"; "-hostname=true"]
           nat (Sample.host [Sample.lo] Sample.healthy) 0%nat eq_refl).
Defined.

(** C6.  When the command line sets the [os] flag, [main] runs
    [PrintSysInfo] and then [PrintCPUInfo] (after [PrintHostName] if
    [hostname] is set too), and never [PrintOSName]: no "OS name" or "OS
    arch" line is written on any host.  On a host where the queries made
    up to there succeed, standard output holds the system-statistics
    section immediately followed by the CPU section. *)
Theorem os_flag_prints_sys_and_cpu :
  forall (GOOS GOARCH : string) (os_Args : list string) (fl : FlagVars),
    flag_Parse os_Args = ret fl ->
    OS fl = true ->
    main GOOS GOARCH os_Args
    = (fmt_Println [VInt (len os_Args)] ;;
       (if hn fl then PrintHostName else ret tt) ;;
       (PrintSysInfo ;; PrintCPUInfo) ;;
       (if cpu fl then PrintCPUInfo else ret tt) ;;
       (if netw fl then PrintNetworkInterface else ret tt))
    /\ (forall (W : Type) (handle : forall q : query, W -> answer q * W) (w : W),
          Forall not_osname (stdout (run handle (main GOOS GOARCH os_Args) w)))
    /\ forall (W : Type) (handle : forall q : query, W -> answer q * W) (w : W),
         let w1 := if hn fl then next handle os_Hostname w else w in
         let w2 := next handle syscall_Sysinfo w1 in
         let w3 := next handle cpu_Info w2 in
         let rest :=
           run handle ((if cpu fl then PrintCPUInfo else ret tt) ;;
                       (if netw fl then PrintNetworkInterface else ret tt)) w3 in
         (hn fl = true -> snd (reply handle os_Hostname w) = None) ->
         snd (reply handle syscall_Sysinfo w1) = None ->
         snd (reply handle cpu_Info w2) = None ->
         stdout (run handle (main GOOS GOARCH os_Args) w)
         = Println [VInt (len os_Args)]
           :: (if hn fl then hostname_lines (fst (reply handle os_Hostname w)) else [])
           ++ sys_lines (sys_of (fst (reply handle syscall_Sysinfo w1)))
           ++ cpu_report (fst (reply handle cpu_Info w2))
           ++ stdout rest.
Proof.
  intros GOOS GOARCH os_Args fl Hparse Hos.
  assert (Hmain := main_os GOOS GOARCH os_Args fl Hparse Hos).
  split; [exact Hmain|]. split.
  - intros W handle w. apply writes_only_run. rewrite Hmain.
    apply writes_only_bind; [split; [reflexivity | exact I] | intros _].
    apply writes_only_bind;
      [destruct (hn fl); [apply PrintHostName_not_osname | exact I] | intros _].
    apply writes_only_bind;
      [apply writes_only_bind;
         [apply PrintSysInfo_not_osname | intros _; apply PrintCPUInfo_not_osname]
      | intros _].
    apply writes_only_bind;
      [destruct (cpu fl); [apply PrintCPUInfo_not_osname | exact I] | intros _].
    destruct (netw fl); [apply PrintNetworkInterface_not_osname | exact I].
  - intros W handle w w1 w2 w3 rest Hh Hs Hc.
    now rewrite (run_main_os handle GOOS GOARCH os_Args fl w Hparse Hos Hh Hs Hc).
Qed.

Lemma os_flag_prints_sys_and_cpu_witness :
  stdout (run (Sample.host [Sample.lo] Sample.healthy)
            (main "linux" "amd64" ["machineInfo"; "--os"]) 0%nat)
  = Println [VInt 2]
    :: sys_lines (sys_of Sample.info) ++ cpu_report [Sample.core 0; Sample.core 1].
Proof.
  refine (eq_trans
            (proj2 (proj2 (os_flag_prints_sys_and_cpu "linux" "amd64"
                             ["machineInfo"; "--os"]
                             {| hn := false; OS := true; cpu := false; netw := false |}
                             eq_refl eq_refl))
               nat (Sample.host [Sample.lo] Sample.healthy) 0%nat _ eq_refl eq_refl) _).
  - discriminate.
  - reflexivity.
Defined.

(** C7.  When the CPU query succeeds, [GetCPUInfo] returns the sequence it
    was given, as it is, and [PrintCPUInfo] writes the thirteen lines of
    every record, record after record in the order of that sequence and
    nothing else: the section has thirteen lines per record, and its
    "cpuID" lines are those of the records, one for each and in the same
    order, whether or not records repeat. *)
Theorem cpu_report_renders_every_record_in_order :
  forall (W : Type) (handle : forall q : query, W -> answer q * W) (w : W)
         (cpu_info : list InfoStat),
    reply handle cpu_Info w = (cpu_info, None) ->
    run handle GetCPUInfo w
    = MkRun (Returned cpu_info) [] [cpu_Info] (next handle cpu_Info w)
    /\ run handle PrintCPUInfo w
       = MkRun (Returned tt) (flat_map cpu_lines cpu_info) [cpu_Info]
           (next handle cpu_Info w)
    /\ List.length (flat_map cpu_lines cpu_info) = (13 * List.length cpu_info)%nat
    /\ filter (has_format ("cpuID:" ++ TAB ++ "%d" ++ NL)) (flat_map cpu_lines cpu_info)
       = map (fun c => Printf ("cpuID:" ++ TAB ++ "%d" ++ NL) [VInt (CPU c)]) cpu_info.
Proof.
  intros W handle w cpu_info Hreply. split; [|split; [|split]].
  - now rewrite run_GetCPUInfo, Hreply.
  - now rewrite run_PrintCPUInfo, Hreply.
  - induction cpu_info as [|c l IH] in |- *; [reflexivity|].
    change (flat_map cpu_lines (c :: l))
      with (cpu_lines c ++ flat_map cpu_lines l)%list.
    rewrite length_app, IH. simpl List.length. lia.
  - induction cpu_info as [|c l IH] in |- *; [reflexivity|].
    change (flat_map cpu_lines (c :: l))
      with (cpu_lines c ++ flat_map cpu_lines l)%list.
    rewrite filter_app, IH. reflexivity.
Qed.

Lemma cpu_report_renders_every_record_in_order_witness :
  run (Sample.host [] Sample.healthy) PrintCPUInfo 0%nat
  = MkRun (Returned tt)
      (cpu_lines (Sample.core 0) ++ cpu_lines (Sample.core 1)) [cpu_Info] 1%nat.
Proof.
  exact (proj1 (proj2 (cpu_report_renders_every_record_in_order nat
                         (Sample.host [] Sample.healthy) 0%nat
                         [Sample.core 0; Sample.core 1] eq_refl))).
Defined.

(** C8.  When the system-information query succeeds, the eight memory
    fields of the record that [GetSysInfo] returns are integers between 0
    and 2^64 - 1 and its process count is between 0 and 2^16 - 1; and each
    of its three load averages is a number (not a NaN, not an infinity)
    with a clear sign bit, whose value is at least 0. *)
Theorem sysinfo_fields_nonnegative :
  forall (W : Type) (handle : forall q : query, W -> answer q * W) (w : W)
         (sys_ref : Sysinfo_t),
    reply handle syscall_Sysinfo w = (sys_ref, None) ->
    Sysinfo_wf sys_ref ->
    exists sys_obj : sys_t,
      result (run handle GetSysInfo w) = Returned sys_obj
      /\ is_uint64 (TotalRam sys_obj) /\ is_uint64 (FreeRam sys_obj)
      /\ is_uint64 (SharedRam sys_obj) /\ is_uint64 (BufferRam sys_obj)
      /\ is_uint64 (TotalSwap sys_obj) /\ is_uint64 (FreeSwap sys_obj)
      /\ is_uint64 (TotalHigh sys_obj) /\ is_uint64 (FreeHigh sys_obj)
      /\ is_uint16 (Procs sys_obj)
      /\ (float64_nonneg (at0 (Loads sys_obj)) = true
          /\ (0 <= float64_value (at0 (Loads sys_obj)))%Q)
      /\ (float64_nonneg (at1 (Loads sys_obj)) = true
          /\ (0 <= float64_value (at1 (Loads sys_obj)))%Q)
      /\ (float64_nonneg (at2 (Loads sys_obj)) = true
          /\ (0 <= float64_value (at2 (Loads sys_obj)))%Q).
Proof.
  intros W handle w sys_ref Hreply Hwf. exists (sys_of sys_ref).
  rewrite run_GetSysInfo, Hreply. destruct Hwf.
  split; [reflexivity|].
  cbn [sys_of Loads at0 at1 at2 TotalRam FreeRam SharedRam BufferRam TotalSwap
       FreeSwap TotalHigh FreeHigh Procs].
  repeat match goal with
         | |- is_uint64 (_ / _) /\ _ => split; [now apply mem_of_converted|]
         | |- is_uint16 _ /\ _ => split; [assumption|]
         | |- (float64_nonneg _ = true /\ _) /\ _ => split; [now apply load_of_nonneg|]
         end.
  now apply load_of_nonneg.
Qed.

Lemma sysinfo_fields_nonnegative_witness :
  exists sys_obj : sys_t,
    result (run (Sample.host [] Sample.healthy) GetSysInfo 0%nat) = Returned sys_obj
    /\ is_uint64 (FreeRam sys_obj)
    /\ float64_nonneg (at0 (Loads sys_obj)) = true
    /\ at0 (Loads sys_obj) = S754_finite false 4503599627370496 (-52)
    /\ at2 (Loads sys_obj) = S754_zero false.
Proof.
  destruct (sysinfo_fields_nonnegative nat (Sample.host [] Sample.healthy) 0%nat
              Sample.info eq_refl)
    as (sys_obj & Hrun & _ & Hfree & _ & _ & _ & _ & _ & _ & _ & [Hl0 _] & _).
  - constructor; vm_compute; split; discriminate.
  - exists sys_obj. split; [exact Hrun|]. split; [exact Hfree|]. split; [exact Hl0|].
    injection Hrun as <-. split; reflexivity.
Defined.

(** C9.  When the system-information query succeeds, the third and fourth
    lines of the section are "sys totalRam" and "sys freeRam", and both
    show [TotalRam]; the "sys freeRam" line is the only one with that
    label; and the section is the same whatever free-memory reading the
    kernel gives along with the other fields. *)
Theorem free_ram_line_shows_total_ram :
  forall (W : Type) (handle : forall q : query, W -> answer q * W) (w : W)
         (sys_ref : Sysinfo_t),
    reply handle syscall_Sysinfo w = (sys_ref, None) ->
    let out := stdout (run handle PrintSysInfo w) in
    out = sys_lines (sys_of sys_ref)
    /\ nth_error out 2
       = Some (Printf ("sys totalRam:" ++ TAB ++ "%d MB" ++ NL)
                 [VInt (TotalRam (sys_of sys_ref))])
    /\ nth_error out 3
       = Some (Printf ("sys freeRam:" ++ TAB ++ "%d MB" ++ NL)
                 [VInt (TotalRam (sys_of sys_ref))])
    /\ filter (has_format ("sys freeRam:" ++ TAB ++ "%d MB" ++ NL)) out
       = [Printf ("sys freeRam:" ++ TAB ++ "%d MB" ++ NL)
            [VInt (Totalram sys_ref / 1048576)]]
    /\ forall (W' : Type) (handle' : forall q : query, W' -> answer q * W') (w' : W')
              (free : Z),
         reply handle' syscall_Sysinfo w' = (with_Freeram free sys_ref, None) ->
         stdout (run handle' PrintSysInfo w') = out.
Proof.
  intros W handle w sys_ref Hreply out.
  assert (Hout : out = sys_lines (sys_of sys_ref)).
  { subst out. now rewrite run_PrintSysInfo, Hreply. }
  rewrite Hout. repeat split.
  intros W' handle' w' free Hreply'. now rewrite run_PrintSysInfo, Hreply'.
Qed.

Lemma free_ram_line_shows_total_ram_witness :
  nth_error (stdout (run (Sample.host [] Sample.healthy) PrintSysInfo 0%nat)) 3
  = Some (Printf ("sys freeRam:" ++ TAB ++ "%d MB" ++ NL) [VInt 8192])
  /\ FreeRam (sys_of Sample.info) = 3072.
Proof.
  split.
  - exact (proj1 (proj2 (proj2 (free_ram_line_shows_total_ram nat
                                  (Sample.host [] Sample.healthy) 0%nat
                                  Sample.info eq_refl)))).
  - reflexivity.
Defined.

(** C10 (counterexample).  With [--os --cpu] the system-statistics section
    is written first and the two CPU sections follow it, one right after
    the other: it does not lie between them. *)
Lemma sys_section_is_not_between_cpu_sections :
  let out := stdout (run (Sample.host [Sample.lo] Sample.healthy)
                       (main "linux" "amd64" ["machineInfo"; "--os"; "--cpu"]) 0%nat) in
  let cpu_section := cpu_report [Sample.core 0; Sample.core 1] in
  let sys_section := sys_lines (sys_of Sample.info) in
  out = (Println [VInt 3] :: sys_section ++ cpu_section ++ cpu_section)%list
  /\ ~ sys_between_cpu_copies out cpu_section sys_section.
Proof.
  intros out cpu_section sys_section.
  assert (Hout : out = (Println [VInt 3] :: sys_section ++ cpu_section ++ cpu_section)%list)
    by reflexivity.
  split; [exact Hout|].
  intros (before & gap1 & gap2 & after & H).
  assert (Hlen := f_equal (@List.length output) H).
  rewrite !length_app in Hlen.
  change (List.length out) with 64%nat in Hlen.
  change (List.length cpu_section) with 26%nat in Hlen.
  change (List.length sys_section) with 11%nat in Hlen.
  destruct before as [|b0 [|b1 before]]; simpl List.length in Hlen.
  - rewrite Hout in H. vm_compute in H. discriminate H.
  - rewrite Hout in H. vm_compute in H. discriminate H.
  - lia.
Qed.

(** C10 (amended).  When the command line sets both the [os] and the
    [cpu] flag, [main] runs [PrintSysInfo] once and then [PrintCPUInfo]
    twice in a row (once in the [os] branch, once in the [cpu] branch).
    On a host where the queries made up to there succeed, standard output
    holds the system-statistics section followed by two CPU sections, the
    second right after the first, each showing what its own query
    returned. *)
Theorem os_and_cpu_flags_print_cpu_twice_after_sys :
  forall (GOOS GOARCH : string) (os_Args : list string) (fl : FlagVars),
    flag_Parse os_Args = ret fl ->
    OS fl = true ->
    cpu fl = true ->
    main GOOS GOARCH os_Args
    = (fmt_Println [VInt (len os_Args)] ;;
       (if hn fl then PrintHostName else ret tt) ;;
       (PrintSysInfo ;; PrintCPUInfo) ;;
       PrintCPUInfo ;;
       (if netw fl then PrintNetworkInterface else ret tt))
    /\ forall (W : Type) (handle : forall q : query, W -> answer q * W) (w : W),
         let w1 := if hn fl then next handle os_Hostname w else w in
         let w2 := next handle syscall_Sysinfo w1 in
         let w3 := next handle cpu_Info w2 in
         let w4 := next handle cpu_Info w3 in
         let tail :=
           run handle (if netw fl then PrintNetworkInterface else ret tt) w4 in
         (hn fl = true -> snd (reply handle os_Hostname w) = None) ->
         snd (reply handle syscall_Sysinfo w1) = None ->
         snd (reply handle cpu_Info w2) = None ->
         snd (reply handle cpu_Info w3) = None ->
         stdout (run handle (main GOOS GOARCH os_Args) w)
         = Println [VInt (len os_Args)]
           :: (if hn fl then hostname_lines (fst (reply handle os_Hostname w)) else [])
           ++ sys_lines (sys_of (fst (reply handle syscall_Sysinfo w1)))
           ++ cpu_report (fst (reply handle cpu_Info w2))
           ++ cpu_report (fst (reply handle cpu_Info w3))
           ++ stdout tail
         /\ calls (run handle (main GOOS GOARCH os_Args) w)
            = ((if hn fl then [os_Hostname] else [])
               ++ [syscall_Sysinfo; cpu_Info; cpu_Info] ++ calls tail)%list.
Proof.
  intros GOOS GOARCH os_Args fl Hparse Hos Hcpu. split.
  - rewrite (main_os GOOS GOARCH os_Args fl Hparse Hos). now rewrite Hcpu.
  - intros W handle w w1 w2 w3 w4 tail Hh Hs Hc1 Hc2.
    rewrite (run_main_os handle GOOS GOARCH os_Args fl w Hparse Hos Hh Hs Hc1).
    cbn [stdout calls]. fold w1 w2 w3. rewrite Hcpu.
    rewrite run_bind, run_PrintCPUInfo, Hc2.
    unfold then_run. cbn [result final stdout calls]. fold w4 tail.
    split; reflexivity.
Qed.

Lemma os_and_cpu_flags_print_cpu_twice_after_sys_witness :
  stdout (run (Sample.host [Sample.lo] Sample.healthy)
            (main "linux" "amd64" ["machineInfo"; "--os"; "--cpu"]) 0%nat)
  = Println [VInt 3]
    :: sys_lines (sys_of Sample.info)
    ++ cpu_report [Sample.core 0; Sample.core 1]
    ++ cpu_report [Sample.core 0; Sample.core 1].
Proof.
  refine (eq_trans
            (proj1 (proj2 (os_and_cpu_flags_print_cpu_twice_after_sys "linux" "amd64"
                             ["machineInfo"; "--os"; "--cpu"]
                             {| hn := false; OS := true; cpu := true; netw := false |}
                             eq_refl eq_refl eq_refl)
                      nat (Sample.host [Sample.lo] Sample.healthy) 0%nat
                      _ eq_refl eq_refl eq_refl)) _).
  - discriminate.
  - reflexivity.
Defined.

(* ===================================================================== *)
(** * Further properties of the program *)

(** ** Flag parsing does no input or output *)

Lemma FlagSet_Parse_silent (arguments : list string) :
  forall fl : FlagVars, silent (FlagSet_Parse fl arguments).
Proof.
  induction arguments as [|s rest IH]; intros fl; simpl.
  - exact I.
  - destruct (shape_of s) as [| | |name val]; try exact I.
    destruct (registered name); simpl.
    + destruct val as [text|]; [|apply IH].
      destruct (ParseBool text); [apply IH | exact I].
    + destruct ((name =? "help")%string || (name =? "h")%string); exact I.
Qed.

Lemma flag_Parse_silent (os_Args : list string) : silent (flag_Parse os_Args).
Proof.
  destruct os_Args as [|prog arguments]; [exact I|].
  apply FlagSet_Parse_silent.
Qed.

(** ** Reporters in sequence *)

Lemma prefix_of_nil {T : Type} (b : list T) : prefix_of [] b.
Proof. now exists b. Qed.

Lemma prefix_of_refl {T : Type} (a : list T) : prefix_of a a.
Proof. exists []. now rewrite app_nil_r. Qed.

Lemma prefix_of_app {T : Type} (a b c : list T) :
  prefix_of b c -> prefix_of (a ++ b) (a ++ c).
Proof. intros [rest ->]. exists rest. now rewrite app_assoc. Qed.

Lemma prefix_of_weaken {T : Type} (a b c : list T) :
  prefix_of a b -> prefix_of a (b ++ c).
Proof. intros [rest ->]. exists (rest ++ c)%list. now rewrite app_assoc. Qed.

Lemma asks_in_order_skip : asks_in_order (ret tt) [].
Proof.
  intros W handle w. simpl. repeat split.
  - apply prefix_of_nil.
  - discriminate.
Qed.

Lemma asks_in_order_seq (p1 p2 : Go unit) (qs1 qs2 : list query) :
  asks_in_order p1 qs1 -> asks_in_order p2 qs2 ->
  asks_in_order (p1 ;; p2) (qs1 ++ qs2).
Proof.
  intros H1 H2 W handle w. cbv zeta. rewrite run_bind.
  destruct (H1 W handle w) as (Hpre1 & Hret1 & Hexit1).
  unfold then_run.
  destruct (result (run handle p1 w)) as [[] | v | c] eqn:Hres.
  - destruct (H2 W handle (final (run handle p1 w))) as (Hpre2 & Hret2 & Hexit2).
    cbn [result calls]. rewrite (Hret1 eq_refl). repeat split.
    + now apply prefix_of_app.
    + intros Hr. now rewrite (Hret2 Hr).
    + exact Hexit2.
  - cbn [result calls]. repeat split.
    + now apply prefix_of_weaken.
    + discriminate.
    + discriminate.
  - now elim (Hexit1 c).
Qed.

Lemma asks_in_order_Println (args : list value) (p : Go unit) (qs : list query) :
  asks_in_order p qs -> asks_in_order (fmt_Println args ;; p) qs.
Proof.
  intros H W handle w. cbv zeta. rewrite run_Println_then.
  cbn [result calls]. apply H.
Qed.

Lemma asks_in_order_PrintHostName : asks_in_order PrintHostName [os_Hostname].
Proof.
  intros W handle w. cbv zeta. rewrite run_PrintHostName.
  destruct (snd (reply handle os_Hostname w)); cbn [result calls];
    repeat split; (apply prefix_of_refl || discriminate).
Qed.

Lemma asks_in_order_PrintSysInfo : asks_in_order PrintSysInfo [syscall_Sysinfo].
Proof.
  intros W handle w. cbv zeta. rewrite run_PrintSysInfo.
  destruct (snd (reply handle syscall_Sysinfo w)); cbn [result calls];
    repeat split; (apply prefix_of_refl || discriminate).
Qed.

Lemma asks_in_order_PrintCPUInfo : asks_in_order PrintCPUInfo [cpu_Info].
Proof.
  intros W handle w. cbv zeta. rewrite run_PrintCPUInfo.
  destruct (snd (reply handle cpu_Info w)); cbn [result calls];
    repeat split; (apply prefix_of_refl || discriminate).
Qed.

Lemma asks_in_order_PrintNetworkInterface :
  asks_in_order PrintNetworkInterface [net_Interfaces].
Proof.
  intros W handle w. cbv zeta. rewrite run_PrintNetworkInterface.
  destruct (snd (reply handle net_Interfaces w));
    [|destruct (fst (reply handle net_Interfaces w))]; cbn [result calls];
    repeat split; (apply prefix_of_refl || discriminate).
Qed.

(** ** The two printing loops *)

(** X1.  When the enumeration succeeds with at least one interface,
    [PrintNetworkInterface] returns after writing one line per interface,
    in the order of the enumeration: the first under the label
    "interfaces:", every other one under two tabs; the label is written
    once. *)
Theorem network_report_one_line_per_interface :
  forall (W : Type) (handle : forall q : query, W -> answer q * W) (w : W)
         (first : Interface) (others : list Interface),
    reply handle net_Interfaces w = (first :: others, None) ->
    let r := run handle PrintNetworkInterface w in
    result r = Returned tt
    /\ calls r = [net_Interfaces]
    /\ List.length (stdout r) = List.length (first :: others)
    /\ nth_error (stdout r) 0
       = Some (Printf ("interfaces:" ++ TAB ++ "%v" ++ NL) [VInterface first])
    /\ (forall (i : nat) (iface : Interface),
          nth_error (first :: others) (S i) = Some iface ->
          nth_error (stdout r) (S i)
          = Some (Printf (TAB ++ TAB ++ "%v" ++ NL) [VInterface iface]))
    /\ filter (has_format ("interfaces:" ++ TAB ++ "%v" ++ NL)) (stdout r)
       = [Printf ("interfaces:" ++ TAB ++ "%v" ++ NL) [VInterface first]].
Proof.
  intros W handle w first others Hreply r. subst r.
  rewrite run_PrintNetworkInterface, Hreply. cbn [fst snd result calls stdout].
  split; [reflexivity|]. split; [reflexivity|].
  cbn [network_lines]. split; [|split; [reflexivity|split]].
  - cbn [List.length]. now rewrite length_map.
  - intros i iface Hi. cbn [nth_error] in *.
    now rewrite nth_error_map, Hi.
  - cbn [filter]. replace (has_format _ _) with true by reflexivity.
    f_equal. clear. induction others as [|x others IH]; [reflexivity|].
    cbn [map filter]. now replace (has_format _ (iface_line x)) with false by reflexivity.
Qed.

Lemma network_report_one_line_per_interface_witness :
  nth_error (stdout (run (Sample.host [Sample.lo; Sample.eth0] Sample.healthy)
                       PrintNetworkInterface 0%nat)) 1
  = Some (Printf (TAB ++ TAB ++ "%v" ++ NL) [VInterface Sample.eth0]).
Proof.
  exact (proj1 (proj2 (proj2 (proj2 (proj2
           (network_report_one_line_per_interface nat
              (Sample.host [Sample.lo; Sample.eth0] Sample.healthy) 0%nat
              Sample.lo [Sample.eth0] eq_refl)))))
           0%nat Sample.eth0 eq_refl).
Defined.

(** X2.  Index expressions of the two loops.  [PrintCPUInfo] never fails a
    bounds check: it returns, or panics with the error of its query, and
    an empty list of CPUs gives an empty section.  [PrintNetworkInterface]
    fails a bounds check exactly when the enumeration succeeded with no
    interface, and then at index 0: the loop over the other interfaces
    stays within bounds. *)
Theorem printing_loops_bounds :
  forall (W : Type) (handle : forall q : query, W -> answer q * W) (w : W),
    (forall i n, result (run handle PrintCPUInfo w) <> Panicked (IndexOutOfRange i n))
    /\ (reply handle cpu_Info w = ([], None) ->
        run handle PrintCPUInfo w = MkRun (Returned tt) [] [cpu_Info] (next handle cpu_Info w))
    /\ (forall i n,
          result (run handle PrintNetworkInterface w) = Panicked (IndexOutOfRange i n)
          <-> reply handle net_Interfaces w = ([], None) /\ i = 0 /\ n = 0).
Proof.
  intros W handle w. split; [|split].
  - intros i n. rewrite run_PrintCPUInfo.
    destruct (snd (reply handle cpu_Info w)); discriminate.
  - intros Hreply. now rewrite run_PrintCPUInfo, Hreply.
  - intros i n. rewrite run_PrintNetworkInterface.
    destruct (reply handle net_Interfaces w) as [ifaces [e|]]; cbn [fst snd result].
    + split; [discriminate | intros [H _]; discriminate H].
    + destruct ifaces as [|first others]; cbn [result].
      * split.
        -- intros H. injection H as <- <-. auto.
        -- intros (_ & -> & ->). reflexivity.
      * split; [discriminate | intros [H _]; discriminate H].
Qed.

Lemma printing_loops_bounds_witness :
  result (run (Sample.host [] Sample.healthy) PrintNetworkInterface 0%nat)
  = Panicked (IndexOutOfRange 0 0)
  /\ run (Sample.host [] Sample.healthy) PrintCPUInfo 0%nat
     <> run (Sample.host [] Sample.healthy) PrintNetworkInterface 0%nat.
Proof.
  split.
  - exact (proj2 (proj2 (proj2 (printing_loops_bounds nat
                                  (Sample.host [] Sample.healthy) 0%nat)) 0 0)
             (conj eq_refl (conj eq_refl eq_refl))).
  - discriminate.
Defined.

(** X3.  The lines of the CPU section are laid out in blocks of thirteen:
    line 13 i + j of what [PrintCPUInfo] writes is line j of record i. *)
Theorem cpu_report_layout :
  forall (W : Type) (handle : forall q : query, W -> answer q * W) (w : W)
         (cpu_info : list InfoStat) (i j : nat) (c : InfoStat),
    reply handle cpu_Info w = (cpu_info, None) ->
    nth_error cpu_info i = Some c ->
    (j < 13)%nat ->
    nth_error (stdout (run handle PrintCPUInfo w)) (13 * i + j)
    = nth_error (cpu_lines c) j.
Proof.
  intros W handle w cpu_info i j c Hreply Hi Hj.
  rewrite run_PrintCPUInfo, Hreply. cbn [fst snd stdout]. unfold cpu_report.
  clear Hreply. revert i Hi. induction cpu_info as [|c0 l IH]; intros i Hi.
  - destruct i; discriminate Hi.
  - change (flat_map cpu_lines (c0 :: l))
      with (cpu_lines c0 ++ flat_map cpu_lines l)%list.
    destruct i as [|i].
    + injection Hi as ->. rewrite Nat.mul_0_r, Nat.add_0_l.
      apply nth_error_app1. exact Hj.
    + rewrite nth_error_app2 by (change (List.length (cpu_lines c0)) with 13%nat; lia).
      change (List.length (cpu_lines c0)) with 13%nat.
      replace (13 * S i + j - 13)%nat with (13 * i + j)%nat by lia.
      apply IH. exact Hi.
Qed.

Lemma cpu_report_layout_witness :
  nth_error (stdout (run (Sample.host [] Sample.healthy) PrintCPUInfo 0%nat)) 13
  = Some (Printf ("cpuID:" ++ TAB ++ "%d" ++ NL) [VInt 1]).
Proof.
  exact (cpu_report_layout nat (Sample.host [] Sample.healthy) 0%nat
           [Sample.core 0; Sample.core 1] 1 0 (Sample.core 1) eq_refl eq_refl
           ltac:(repeat constructor)).
Defined.

(** ** The dispatcher, for every command line *)

Lemma asks_in_order_PrintOSName (GOOS GOARCH : string) :
  asks_in_order (PrintOSName GOOS GOARCH) [].
Proof.
  intros W handle w. cbv zeta. rewrite run_PrintOSName. cbn [result calls].
  repeat split; (apply prefix_of_refl || discriminate).
Qed.

Lemma asks_in_order_when (b : bool) (p : Go unit) (qs : list query) :
  asks_in_order p qs ->
  asks_in_order (if b then p else ret tt) (if b then qs else []).
Proof. intros H. destruct b; [exact H | exact asks_in_order_skip]. Qed.

(** The two bodies of [main]. *)
Lemma asks_in_order_all (GOOS GOARCH : string) :
  asks_in_order
    (PrintHostName ;; PrintNetworkInterface ;; PrintOSName GOOS GOARCH ;;
     PrintSysInfo ;; PrintCPUInfo)
    [os_Hostname; net_Interfaces; syscall_Sysinfo; cpu_Info].
Proof.
  apply (asks_in_order_seq _ _ [os_Hostname] _ asks_in_order_PrintHostName).
  apply (asks_in_order_seq _ _ [net_Interfaces] _ asks_in_order_PrintNetworkInterface).
  apply (asks_in_order_seq _ _ [] _ (asks_in_order_PrintOSName GOOS GOARCH)).
  apply (asks_in_order_seq _ _ [syscall_Sysinfo] _ asks_in_order_PrintSysInfo).
  exact asks_in_order_PrintCPUInfo.
Qed.

Lemma asks_in_order_selected (fl : FlagVars) :
  asks_in_order
    ((if hn fl then PrintHostName else ret tt) ;;
     (if OS fl then PrintSysInfo ;; PrintCPUInfo else ret tt) ;;
     (if cpu fl then PrintCPUInfo else ret tt) ;;
     (if netw fl then PrintNetworkInterface else ret tt))
    (selected fl).
Proof.
  unfold selected.
  apply asks_in_order_seq;
    [apply asks_in_order_when, asks_in_order_PrintHostName|].
  apply asks_in_order_seq.
  { apply asks_in_order_when.
    exact (asks_in_order_seq _ _ [syscall_Sysinfo] [cpu_Info]
             asks_in_order_PrintSysInfo asks_in_order_PrintCPUInfo). }
  apply asks_in_order_seq;
    [apply asks_in_order_when, asks_in_order_PrintCPUInfo|].
  apply asks_in_order_when, asks_in_order_PrintNetworkInterface.
Qed.

(** X4.  Flags are parsed before anything else happens.  If parsing does
    not return (an unknown flag, a malformed one, a request for help),
    the run ends as parsing ended, with nothing on standard output and no
    query made; if it returns, the first thing written is the number of
    elements of [os.Args], which is at least 1, and the run does not end
    through [os.Exit]. *)
Theorem parsing_precedes_output :
  forall (GOOS GOARCH : string) (os_Args : list string) (W : Type)
         (handle : forall q : query, W -> answer q * W) (w : W),
    let r := run handle (main GOOS GOARCH os_Args) w in
    ((forall fl, flag_Parse os_Args <> ret fl) ->
     stdout r = [] /\ calls r = [] /\ final r = w
     /\ ((exists c, flag_Parse os_Args = OsExit c /\ result r = Exited c)
         \/ (exists v, flag_Parse os_Args = Panic v /\ result r = Panicked v)))
    /\ (forall fl, flag_Parse os_Args = ret fl ->
        1 <= len os_Args
        /\ (exists rest, stdout r = Println [VInt (len os_Args)] :: rest)
        /\ (forall c, result r <> Exited c)).
Proof.
  intros GOOS GOARCH os_Args W handle w r. subst r. split.
  - intros Hfail. unfold main. pose proof (flag_Parse_silent os_Args) as Hs.
    destruct (flag_Parse os_Args) as [fl | v | c | q k | o k]; try contradiction.
    + now elim (Hfail fl).
    + simpl. repeat split. right. now exists v.
    + simpl. repeat split. left. now exists c.
  - intros fl Hparse. split; [|split].
    + destruct os_Args as [|prog rest]; [discriminate Hparse|].
      rewrite len_cons. pose proof (len_nonneg rest). lia.
    + unfold main. rewrite Hparse, bind_ret_l, run_Println_then.
      cbn [stdout]. eauto.
    + unfold main. rewrite Hparse, bind_ret_l, run_Println_then. cbn [result].
      destruct (len os_Args =? 1).
      * apply (asks_in_order_all GOOS GOARCH).
      * apply (asks_in_order_selected fl).
Qed.

Lemma parsing_precedes_output_witness :
  stdout (run (Sample.host [Sample.lo] Sample.healthy)
            (main "linux" "amd64" ["machineInfo"; "--hostname"; "--verbose"]) 0%nat)
  = []
  /\ (exists rest,
        stdout (run (Sample.host [Sample.lo] Sample.healthy)
                  (main "linux" "amd64" ["machineInfo"; "--cpu"]) 0%nat)
        = Println [VInt 2] :: rest).
Proof.
  split.
  - refine (proj1 (proj1 (parsing_precedes_output "linux" "amd64"
                            ["machineInfo"; "--hostname"; "--verbose"] nat
                            (Sample.host [Sample.lo] Sample.healthy) 0%nat) _)).
    intros fl H. discriminate H.
  - exact (proj1 (proj2 (proj2 (parsing_precedes_output "linux" "amd64"
                                  ["machineInfo"; "--cpu"] nat
                                  (Sample.host [Sample.lo] Sample.healthy) 0%nat)
                           {| hn := false; OS := false; cpu := true; netw := false |}
                           eq_refl))).
Defined.

(** X5.  Which queries a run makes, on any host.  With flags, the queries
    are taken from: host name if [hostname], then system information and
    CPU if [os], then CPU if [cpu], then network interfaces if [network];
    without arguments from: host name, network interfaces, system
    information, CPU.  A run asks them in that order and stops asking at
    the first reporter that panics: what it has asked is an initial segment
    of that list, the whole list if it returns.  So no run makes more than
    five queries. *)
Theorem queries_follow_the_dispatch_order :
  forall (GOOS GOARCH : string) (os_Args : list string) (fl : FlagVars) (W : Type)
         (handle : forall q : query, W -> answer q * W) (w : W),
    flag_Parse os_Args = ret fl ->
    let r := run handle (main GOOS GOARCH os_Args) w in
    let planned :=
      if len os_Args =? 1
      then [os_Hostname; net_Interfaces; syscall_Sysinfo; cpu_Info]
      else selected fl in
    prefix_of (calls r) planned
    /\ (result r = Returned tt -> calls r = planned)
    /\ (List.length (calls r) <= 5)%nat.
Proof.
  intros GOOS GOARCH os_Args fl W handle w Hparse r planned.
  assert (H : prefix_of (calls r) planned
              /\ (result r = Returned tt -> calls r = planned)).
  { subst r planned. unfold main.
    rewrite Hparse, bind_ret_l, run_Println_then. cbn [result calls].
    destruct (len os_Args =? 1).
    - destruct (asks_in_order_all GOOS GOARCH W handle w) as (H1 & H2 & _). auto.
    - destruct (asks_in_order_selected fl W handle w) as (H1 & H2 & _). auto. }
  destruct H as [Hpre Hret]. split; [exact Hpre|]. split; [exact Hret|].
  destruct Hpre as [rest Hrest].
  assert (Hlen : (List.length planned <= 5)%nat).
  { subst planned. destruct (len os_Args =? 1); [simpl; lia|].
    unfold selected. destruct (hn fl), (OS fl), (cpu fl), (netw fl); simpl; lia. }
  rewrite Hrest, length_app in Hlen. lia.
Qed.

Lemma queries_follow_the_dispatch_order_witness :
  prefix_of
    (calls (run (Sample.host [Sample.lo] (Sample.only cpu_Info))
              (main "linux" "amd64" ["machineInfo"; "--network"; "--cpu"; "--hostname"])
              0%nat))
    [os_Hostname; cpu_Info; net_Interfaces]
  /\ calls (run (Sample.host [Sample.lo] (Sample.only cpu_Info))
              (main "linux" "amd64" ["machineInfo"; "--network"; "--cpu"; "--hostname"])
              0%nat)
     = [os_Hostname; cpu_Info].
Proof.
  split.
  - exact (proj1 (queries_follow_the_dispatch_order "linux" "amd64"
                    ["machineInfo"; "--network"; "--cpu"; "--hostname"]
                    {| hn := true; OS := false; cpu := true; netw := true |}
                    nat (Sample.host [Sample.lo] (Sample.only cpu_Info)) 0%nat eq_refl)).
  - reflexivity.
Defined.

(** X6.  An argument that sets no flag (a word, ["--"], [--hostname=false])
    still switches the full report off: when [os.Args] has more than one
    element and no flag is on, the program writes the argument count and
    nothing else, asks the host nothing, and returns. *)
Theorem arguments_without_flags_print_only_the_count :
  forall (GOOS GOARCH : string) (os_Args : list string) (W : Type)
         (handle : forall q : query, W -> answer q * W) (w : W),
    flag_Parse os_Args = ret flag_defaults ->
    len os_Args <> 1 ->
    run handle (main GOOS GOARCH os_Args) w
    = MkRun (Returned tt) [Println [VInt (len os_Args)]] [] w.
Proof.
  intros GOOS GOARCH os_Args W handle w Hparse Hlen.
  rewrite (main_with_arguments GOOS GOARCH os_Args flag_defaults Hparse)
    by (now apply Z.eqb_neq).
  reflexivity.
Qed.

Lemma arguments_without_flags_print_only_the_count_witness :
  run (Sample.host [Sample.lo] Sample.healthy)
      (main "linux" "amd64" ["machineInfo"; "status"; "--cpu"]) 0%nat
  = MkRun (Returned tt) [Println [VInt 3]] [] 0%nat
  /\ run (Sample.host [Sample.lo] Sample.healthy)
       (main "linux" "amd64" ["machineInfo"; "--os=false"]) 0%nat
     = MkRun (Returned tt) [Println [VInt 2]] [] 0%nat.
Proof.
  split.
  - apply (arguments_without_flags_print_only_the_count "linux" "amd64"
             ["machineInfo"; "status"; "--cpu"] nat
             (Sample.host [Sample.lo] Sample.healthy) 0%nat eq_refl).
    discriminate.
  - apply (arguments_without_flags_print_only_the_count "linux" "amd64"
             ["machineInfo"; "--os=false"] nat
             (Sample.host [Sample.lo] Sample.healthy) 0%nat eq_refl).
    discriminate.
Defined.

(** X7.  Only the flags that end up on and the number of arguments
    matter: two command lines of the same length that parse to the same
    flags give the same program, in whatever order and spelling the flags
    were written. *)
Theorem main_depends_on_flags_and_count :
  forall (GOOS GOARCH : string) (args1 args2 : list string) (fl : FlagVars),
    flag_Parse args1 = ret fl ->
    flag_Parse args2 = ret fl ->
    len args1 = len args2 ->
    main GOOS GOARCH args1 = main GOOS GOARCH args2.
Proof.
  intros GOOS GOARCH args1 args2 fl H1 H2 Hlen.
  unfold main. now rewrite H1, H2, Hlen.
Qed.

Lemma main_depends_on_flags_and_count_witness :
  main "linux" "amd64" ["machineInfo"; "--network"; "--hostname"]
  = main "linux" "amd64" ["machineInfo"; "-hostname=1"; "-network=T"].
Proof.
  exact (main_depends_on_flags_and_count "linux" "amd64"
           ["machineInfo"; "--network"; "--hostname"]
           ["machineInfo"; "-hostname=1"; "-network=T"]
           {| hn := true; OS := false; cpu := false; netw := true |}
           eq_refl eq_refl eq_refl).
Defined.

(** X8.  The OS name and architecture can only be had without arguments:
    whenever [os.Args] has more or fewer than one element, no "OS name"
    or "OS arch" line is written, whatever the flags and whatever the
    host answers. *)
Theorem no_osname_line_with_arguments :
  forall (GOOS GOARCH : string) (os_Args : list string) (W : Type)
         (handle : forall q : query, W -> answer q * W) (w : W),
    len os_Args <> 1 ->
    Forall not_osname (stdout (run handle (main GOOS GOARCH os_Args) w)).
Proof.
  intros GOOS GOARCH os_Args W handle w Hlen.
  apply writes_only_run. unfold main.
  apply writes_only_bind.
  - pose proof (flag_Parse_silent os_Args) as Hs.
    destruct (flag_Parse os_Args); (exact I || contradiction).
  - intros fl.
    apply writes_only_bind; [split; [reflexivity | exact I] | intros _].
    replace (len os_Args =? 1) with false by (symmetry; now apply Z.eqb_neq).
    apply writes_only_bind;
      [destruct (hn fl); [apply PrintHostName_not_osname | exact I] | intros _].
    apply writes_only_bind;
      [destruct (OS fl);
         [apply writes_only_bind;
            [apply PrintSysInfo_not_osname | intros _; apply PrintCPUInfo_not_osname]
         | exact I]
      | intros _].
    apply writes_only_bind;
      [destruct (cpu fl); [apply PrintCPUInfo_not_osname | exact I] | intros _].
    destruct (netw fl); [apply PrintNetworkInterface_not_osname | exact I].
Qed.

Lemma no_osname_line_with_arguments_witness :
  Forall not_osname
    (stdout (run (Sample.host [Sample.lo] Sample.healthy)
               (main "linux" "amd64"
                  ["machineInfo"; "--hostname"; "--os"; "--cpu"; "--network"]) 0%nat)).
Proof.
  apply (no_osname_line_with_arguments "linux" "amd64"
           ["machineInfo"; "--hostname"; "--os"; "--cpu"; "--network"] nat
           (Sample.host [Sample.lo] Sample.healthy) 0%nat).
  discriminate.
Defined.

(** X9.  The sections come in the order host name, system statistics
    with CPU, CPU, network interfaces, each only if its flag is on,
    whatever the order of the flags on the command line.  On a host where
    every query that is made succeeds (and there is an interface if the
    network report is asked for), the run returns; standard output is the
    argument count followed by these sections, each showing the answer to
    its own query; and the queries made are those of the flags, in that
    order. *)
Theorem flags_select_sections_in_fixed_order :
  forall (GOOS GOARCH : string) (os_Args : list string) (fl : FlagVars) (W : Type)
         (handle : forall q : query, W -> answer q * W) (w : W),
    let w1 := if hn fl then next handle os_Hostname w else w in
    let w1' := next handle syscall_Sysinfo w1 in
    let w2 := if OS fl then next handle cpu_Info w1' else w1 in
    let w3 := if cpu fl then next handle cpu_Info w2 else w2 in
    let w4 := if netw fl then next handle net_Interfaces w3 else w3 in
    flag_Parse os_Args = ret fl ->
    len os_Args <> 1 ->
    (hn fl = true -> snd (reply handle os_Hostname w) = None) ->
    (OS fl = true -> snd (reply handle syscall_Sysinfo w1) = None
                     /\ snd (reply handle cpu_Info w1') = None) ->
    (cpu fl = true -> snd (reply handle cpu_Info w2) = None) ->
    (netw fl = true -> snd (reply handle net_Interfaces w3) = None
                       /\ fst (reply handle net_Interfaces w3) <> []) ->
    run handle (main GOOS GOARCH os_Args) w
    = MkRun (Returned tt)
        (Println [VInt (len os_Args)]
         :: (if hn fl then hostname_lines (fst (reply handle os_Hostname w)) else [])
         ++ (if OS fl
             then sys_lines (sys_of (fst (reply handle syscall_Sysinfo w1)))
                  ++ cpu_report (fst (reply handle cpu_Info w1'))
             else [])
         ++ (if cpu fl then cpu_report (fst (reply handle cpu_Info w2)) else [])
         ++ (if netw fl then network_lines (fst (reply handle net_Interfaces w3)) else []))
        (selected fl)
        w4.
Proof.
  intros GOOS GOARCH os_Args fl W handle w w1 w1' w2 w3 w4 Hparse Hlen Hh Ho Hc Hn.
  rewrite (main_with_arguments GOOS GOARCH os_Args fl Hparse)
    by (now apply Z.eqb_neq).
  assert (R1 : run handle (if hn fl then PrintHostName else ret tt) w
               = MkRun (Returned tt)
                   (if hn fl then hostname_lines (fst (reply handle os_Hostname w)) else [])
                   (if hn fl then [os_Hostname] else []) w1).
  { subst w1. destruct (hn fl); [|reflexivity].
    now rewrite run_PrintHostName, (Hh eq_refl). }
  assert (R2 : run handle (if OS fl then PrintSysInfo ;; PrintCPUInfo else ret tt) w1
               = MkRun (Returned tt)
                   (if OS fl
                    then sys_lines (sys_of (fst (reply handle syscall_Sysinfo w1)))
                         ++ cpu_report (fst (reply handle cpu_Info w1'))
                    else [])
                   (if OS fl then [syscall_Sysinfo; cpu_Info] else []) w2).
  { subst w2. destruct (OS fl); [|reflexivity].
    destruct (Ho eq_refl) as [Hs Hc1].
    rewrite run_bind, run_PrintSysInfo, Hs. unfold then_run.
    cbn [result final stdout calls]. fold w1'.
    now rewrite run_PrintCPUInfo, Hc1. }
  assert (R3 : run handle (if cpu fl then PrintCPUInfo else ret tt) w2
               = MkRun (Returned tt)
                   (if cpu fl then cpu_report (fst (reply handle cpu_Info w2)) else [])
                   (if cpu fl then [cpu_Info] else []) w3).
  { subst w3. destruct (cpu fl); [|reflexivity].
    now rewrite run_PrintCPUInfo, (Hc eq_refl). }
  assert (R4 : run handle (if netw fl then PrintNetworkInterface else ret tt) w3
               = MkRun (Returned tt)
                   (if netw fl then network_lines (fst (reply handle net_Interfaces w3))
                    else [])
                   (if netw fl then [net_Interfaces] else []) w4).
  { subst w4. destruct (netw fl); [|reflexivity].
    destruct (Hn eq_refl) as [He Hne].
    rewrite run_PrintNetworkInterface, He.
    destruct (fst (reply handle net_Interfaces w3)); [now elim Hne | reflexivity]. }
  rewrite run_Println_then, run_bind, R1. unfold then_run.
  cbn [result final stdout calls].
  rewrite run_bind, R2. unfold then_run. cbn [result final stdout calls].
  rewrite run_bind, R3. unfold then_run. cbn [result final stdout calls].
  rewrite R4. cbn [result final stdout calls]. reflexivity.
Qed.

Lemma flags_select_sections_in_fixed_order_witness :
  run (Sample.host [Sample.lo; Sample.eth0] Sample.healthy)
      (main "linux" "amd64" ["machineInfo"; "--network"; "--cpu"; "--hostname"]) 0%nat
  = MkRun (Returned tt)
      (Println [VInt 4]
       :: hostname_lines "box"
       ++ cpu_report [Sample.core 0; Sample.core 1]
       ++ network_lines [Sample.lo; Sample.eth0])
      [os_Hostname; cpu_Info; net_Interfaces]
      3%nat.
Proof.
  apply (flags_select_sections_in_fixed_order "linux" "amd64"
           ["machineInfo"; "--network"; "--cpu"; "--hostname"]
           {| hn := true; OS := false; cpu := true; netw := true |}
           nat (Sample.host [Sample.lo; Sample.eth0] Sample.healthy) 0%nat eq_refl).
  - discriminate.
  - reflexivity.
  - discriminate.
  - reflexivity.
  - intros _. split; [reflexivity | discriminate].
Defined.

(** ** The arithmetic of [GetSysInfo] *)

(** X10.  In the record that [GetSysInfo] returns, megabytes keep the
    order of bytes: for main memory, swap and high memory alike, if the
    kernel reports no more free than total bytes then the free field is
    no more than the total field, and the difference of the two fields is
    the true used amount in megabytes or one more.  Every memory field of
    the record is below 2^44, and is 0 when its byte count is below
    1,048,576. *)
Theorem megabytes_keep_order :
  forall (W : Type) (handle : forall q : query, W -> answer q * W) (w : W)
         (sys_ref : Sysinfo_t),
    reply handle syscall_Sysinfo w = (sys_ref, None) ->
    Sysinfo_wf sys_ref ->
    exists s : sys_t,
      result (run handle GetSysInfo w) = Returned s
      /\ (Freeram sys_ref <= Totalram sys_ref ->
          FreeRam s <= TotalRam s
          /\ (Totalram sys_ref - Freeram sys_ref) / 1048576
             <= TotalRam s - FreeRam s
             <= (Totalram sys_ref - Freeram sys_ref) / 1048576 + 1)
      /\ (Freeswap sys_ref <= Totalswap sys_ref ->
          FreeSwap s <= TotalSwap s
          /\ (Totalswap sys_ref - Freeswap sys_ref) / 1048576
             <= TotalSwap s - FreeSwap s
             <= (Totalswap sys_ref - Freeswap sys_ref) / 1048576 + 1)
      /\ (Freehigh sys_ref <= Totalhigh sys_ref ->
          FreeHigh s <= TotalHigh s
          /\ (Totalhigh sys_ref - Freehigh sys_ref) / 1048576
             <= TotalHigh s - FreeHigh s
             <= (Totalhigh sys_ref - Freehigh sys_ref) / 1048576 + 1)
      /\ (TotalRam s < 2 ^ 44 /\ (Totalram sys_ref < 1048576 -> TotalRam s = 0))
      /\ (FreeRam s < 2 ^ 44 /\ (Freeram sys_ref < 1048576 -> FreeRam s = 0))
      /\ (SharedRam s < 2 ^ 44 /\ (Sharedram sys_ref < 1048576 -> SharedRam s = 0))
      /\ (BufferRam s < 2 ^ 44 /\ (Bufferram sys_ref < 1048576 -> BufferRam s = 0))
      /\ (TotalSwap s < 2 ^ 44 /\ (Totalswap sys_ref < 1048576 -> TotalSwap s = 0))
      /\ (FreeSwap s < 2 ^ 44 /\ (Freeswap sys_ref < 1048576 -> FreeSwap s = 0))
      /\ (TotalHigh s < 2 ^ 44 /\ (Totalhigh sys_ref < 1048576 -> TotalHigh s = 0))
      /\ (FreeHigh s < 2 ^ 44 /\ (Freehigh sys_ref < 1048576 -> FreeHigh s = 0)).
Proof.
  intros W handle w sys_ref Hreply Hwf. exists (sys_of sys_ref).
  rewrite run_GetSysInfo, Hreply. cbn [fst snd result].
  split; [reflexivity|]. destruct Hwf.
  unfold is_uint64, uint64_max in *.
  cbn [sys_of TotalRam FreeRam SharedRam BufferRam TotalSwap FreeSwap TotalHigh FreeHigh].
  change SYSINFO_MEM_UNIT with 1048576.
  assert (Hfield : forall x, 0 <= x <= 2 ^ 64 - 1 ->
                     x / 1048576 < 2 ^ 44 /\ (x < 1048576 -> x / 1048576 = 0)).
  { intros x Hx. split.
    - apply Z.div_lt_upper_bound; lia.
    - intros Hsmall. apply Z.div_small. lia. }
  assert (Hpair : forall total free,
                    0 <= free <= 2 ^ 64 - 1 -> 0 <= total <= 2 ^ 64 - 1 ->
                    free <= total ->
                    free / 1048576 <= total / 1048576
                    /\ (total - free) / 1048576
                       <= total / 1048576 - free / 1048576
                       <= (total - free) / 1048576 + 1).
  { intros total free Hf Ht Hle.
    pose proof (Z.div_mod total 1048576 ltac:(lia)).
    pose proof (Z.mod_pos_bound total 1048576 ltac:(lia)).
    pose proof (Z.div_mod free 1048576 ltac:(lia)).
    pose proof (Z.mod_pos_bound free 1048576 ltac:(lia)).
    pose proof (Z.div_mod (total - free) 1048576 ltac:(lia)).
    pose proof (Z.mod_pos_bound (total - free) 1048576 ltac:(lia)).
    lia. }
  split; [now apply Hpair|]. split; [now apply Hpair|]. split; [now apply Hpair|].
  split; [now apply Hfield|]. split; [now apply Hfield|]. split; [now apply Hfield|].
  split; [now apply Hfield|]. split; [now apply Hfield|]. split; [now apply Hfield|].
  split; now apply Hfield.
Qed.

Lemma megabytes_keep_order_witness :
  exists s : sys_t,
    result (run (Sample.host [] Sample.healthy) GetSysInfo 0%nat) = Returned s
    /\ FreeRam s <= TotalRam s
    /\ 5120 <= TotalRam s - FreeRam s <= 5121
    /\ SharedRam s = 0.
Proof.
  destruct (megabytes_keep_order nat (Sample.host [] Sample.healthy) 0%nat
              Sample.info eq_refl)
    as (s & Hrun & Hram & _ & _ & _ & _ & [_ Hshared] & _).
  - constructor; vm_compute; split; discriminate.
  - exists s. split; [exact Hrun|].
    assert (Hle : Freeram Sample.info <= Totalram Sample.info)
      by (vm_compute; discriminate).
    destruct (Hram Hle) as [H1 H2].
    split; [exact H1|]. split; [exact H2|].
    apply Hshared. reflexivity.
Defined.



(** ** Failure of one reporter *)

(** X12.  A failed query is fatal to everything that was still to come,
    not only to its own section.  When the [hostname] flag is on and the
    host-name query fails, nothing but the argument count is written and
    no other query is made, whatever other flags are on; when the [os]
    flag is on and the system-information query fails, the CPU section
    that the flag implies is not written and the CPU query is not made. *)
Theorem failed_query_ends_the_run :
  forall (GOOS GOARCH : string) (os_Args : list string) (fl : FlagVars) (W : Type)
         (handle : forall q : query, W -> answer q * W) (w : W) (e : error),
    flag_Parse os_Args = ret fl ->
    (hn fl = true ->
     snd (reply handle os_Hostname w) = Some e ->
     run handle (main GOOS GOARCH os_Args) w
     = MkRun (Panicked (PanicError e)) [Println [VInt (len os_Args)]]
         [os_Hostname] (next handle os_Hostname w))
    /\ (hn fl = false -> OS fl = true ->
        snd (reply handle syscall_Sysinfo w) = Some e ->
        run handle (main GOOS GOARCH os_Args) w
        = MkRun (Panicked (PanicError e)) [Println [VInt (len os_Args)]]
            [syscall_Sysinfo] (next handle syscall_Sysinfo w)).
Proof.
  intros GOOS GOARCH os_Args fl W handle w e Hparse. split.
  - intros Hhn Hfail.
    rewrite (main_with_arguments GOOS GOARCH os_Args fl Hparse)
      by (apply (flag_on_needs_argument os_Args fl Hparse); now rewrite Hhn).
    rewrite Hhn, run_Println_then, run_bind, run_PrintHostName, Hfail.
    reflexivity.
  - intros Hhn Hos Hfail.
    rewrite (main_os GOOS GOARCH os_Args fl Hparse Hos).
    rewrite Hhn, run_Println_then, bind_ret_l, !run_bind, run_PrintSysInfo, Hfail.
    reflexivity.
Qed.

Lemma failed_query_ends_the_run_witness :
  run (Sample.host [Sample.lo] (Sample.only syscall_Sysinfo))
      (main "linux" "amd64" ["machineInfo"; "--os"; "--network"]) 0%nat
  = MkRun (Panicked (PanicError "operation not permitted")) [Println [VInt 3]]
      [syscall_Sysinfo] 1%nat.
Proof.
  exact (proj2 (failed_query_ends_the_run "linux" "amd64"
                  ["machineInfo"; "--os"; "--network"]
                  {| hn := false; OS := true; cpu := false; netw := true |}
                  nat (Sample.host [Sample.lo] (Sample.only syscall_Sysinfo)) 0%nat
                  "operation not permitted" eq_refl)
           eq_refl eq_refl eq_refl).
Defined.
